(** * EduChain MCP server: a shallow embedding of [educhain_mcp_server.py]

    The server is a thin gateway: every operation validates its
    arguments, forwards one request to an engine of the external
    [educhain] library, and reshapes the answer.  The embedding keeps
    - Python [str] as a sequence of Unicode code points,
    - Python [dict]/[list]/[int]/[bool] results as a small value type
      whose dictionaries keep insertion order,
    - the external engines as functions from a request to either a
      raised exception or a response object,
    - [try]/[except] and "an engine call happened" in a state-and-error
      monad whose state is the log of engine calls.
    [logger] calls only write to the process log and are left out. *)

From Stdlib Require Import String Ascii DecimalString QArith.
From stdpp Require Import base option list gmap.

Local Open Scope Z_scope.

(** ** Python strings *)

Abbreviation pystr := (list N).

(** An ASCII literal of the source as a Python string. *)
Definition lit (s : string) : pystr := N_of_ascii <$> list_ascii_of_string s.

(** [chr(10)] *)
Definition chr (n : N) : pystr := [n].

(** The bullet character U+2022 used by [get_topic_overview]. *)
Definition bullet : pystr := [0x2022%N].

(** [str.isspace] for one code point: CPython's [_PyUnicode_IsWhitespace]. *)
Definition isspace (c : N) : bool :=
  ((0x0009 <=? c) && (c <=? 0x000D))%N
  || ((0x001C <=? c) && (c <=? 0x0020))%N
  || (c =? 0x0085)%N || (c =? 0x00A0)%N || (c =? 0x1680)%N
  || ((0x2000 <=? c) && (c <=? 0x200A))%N
  || (c =? 0x2028)%N || (c =? 0x2029)%N || (c =? 0x202F)%N
  || (c =? 0x205F)%N || (c =? 0x3000)%N.

Fixpoint lstrip (s : pystr) : pystr :=
  match s with
  | [] => []
  | c :: s' => if isspace c then lstrip s' else s
  end.

Definition rstrip (s : pystr) : pystr := reverse (lstrip (reverse s)).

(** [s.strip()] with no argument. *)
Definition strip (s : pystr) : pystr := rstrip (lstrip s).

(** Truth value of a string: [not s] holds exactly for the empty string. *)
Definition str_not (s : pystr) : bool :=
  match s with [] => true | _ :: _ => false end.

(** [str(n)] for an [int]. *)
Definition str_of_int (z : Z) : pystr :=
  lit (NilZero.string_of_int (Z.to_int z)).

(** [sep.join(parts)] *)
Fixpoint join (sep : pystr) (parts : list pystr) : pystr :=
  match parts with
  | [] => []
  | [p] => p
  | p :: ps => p ++ sep ++ join sep ps
  end.

(** [enumerate(l, start)] *)
Fixpoint enumerate {A} (l : list A) (start : Z) : list (Z * A) :=
  match l with
  | [] => []
  | x :: l' => (start, x) :: enumerate l' (start + 1)
  end.

(** A topic that is empty or made of whitespace only. *)
Definition blank (s : pystr) : Prop := Forall (fun c => isspace c = true) s.

#[global] Instance blank_dec (s : pystr) : Decision (blank s) :=
  Forall_dec (fun c => isspace c = true) s.

(** [needle in hay] for strings. *)
Definition contains (hay needle : pystr) : Prop :=
  exists pre post, hay = pre ++ needle ++ post.

(** ** Python values returned by the tools *)

#[warnings="-register-all"]
Inductive pyval : Type :=
| PyNone
| PyBool (b : bool)
| PyInt (z : Z)
| PyStr (s : pystr)
| PyList (l : list pyval)
| PyDict (d : list (pystr * pyval)).

Abbreviation pydict := (list (list N * pyval)).

(** [d[k]] *)
Fixpoint dict_get (d : pydict) (k : pystr) : option pyval :=
  match d with
  | [] => None
  | (k', v) :: d' => if decide (k' = k) then Some v else dict_get d' k
  end.

Definition dict_keys (d : pydict) : list pystr := fst <$> d.

(** [d[k].append(v)]: the list stored under [k] is extended in place;
    [None] when [k] is missing or does not hold a list. *)
Fixpoint dict_append (d : pydict) (k : pystr) (v : pyval) : option pydict :=
  match d with
  | [] => None
  | (k', x) :: d' =>
      if decide (k' = k) then
        match x with
        | PyList l => Some ((k', PyList (l ++ [v])) :: d')
        | _ => None
        end
      else (fun r => (k', x) :: r) <$> dict_append d' k v
  end.

Definition str_list (l : list pystr) : pyval := PyList (PyStr <$> l).

(** ** Exceptions *)

(** Instances of [Exception], the class the handlers catch: the two
    raised by the server itself or by operations on its own objects, and
    whatever an external library raises.  [KeyboardInterrupt] is not an
    instance of [Exception]: the handlers of the operations do not see
    it, and the start-up code meets it as [thrown] below. *)
Inductive exn : Type :=
| ValueError (msg : pystr)
| AttributeError (msg : pystr)
| UpstreamError (msg : pystr).

(** [str(e)] *)
Definition str_exn (e : exn) : pystr :=
  match e with
  | ValueError m | AttributeError m | UpstreamError m => m
  end.

(** What reaches the start-up code out of an external call that does
    not return: an instance of [Exception], or [KeyboardInterrupt], which
    an [except Exception] handler lets through. *)
Inductive thrown : Type :=
| Exc (e : exn)
| KeyboardInterrupt.

(** ** The external engines

    The answers of the engines are modelled with the attributes the
    server reads from them; an answer that lacks one of them is outside
    the model. *)

Module Engine.

Record Question : Type := {
  question : pystr;
  options : list pystr;
  correct_answer : pystr;
  explanation : pystr
}.

(** The object returned by [qna_engine.generate_questions]. *)
Record QuestionList : Type := { questions : list Question }.

(** The object returned by [content_engine.generate_lesson_plan]. *)
Record LessonPlan : Type := {
  title : pystr;
  objectives : list pystr;
  materials : list pystr;
  introduction : pystr;
  main_content : pyval;
  activities : pyval;
  assessment : pystr;
  conclusion : pystr
}.

(** Keyword arguments of [generate_questions]; [None] is an argument
    the caller did not pass. *)
Record QnaRequest : Type := {
  q_topic : pystr;
  q_num : Z;
  q_question_type : pystr;
  q_difficulty_level : pystr;
  q_custom_instructions : option pystr;
  q_prompt_template : option pystr
}.

(** Keyword arguments of [generate_lesson_plan]. *)
Record LessonRequest : Type := {
  l_topic : pystr;
  l_duration : pystr;
  l_grade_level : pystr;
  l_learning_objectives : option (list pystr)
}.

Inductive call : Type :=
| CallQna (r : QnaRequest)
| CallLesson (r : LessonRequest).

(** [self.educhain_client]: each engine either raises or returns. *)
Record Educhain : Type := {
  qna_engine : QnaRequest -> exn + QuestionList;
  content_engine : LessonRequest -> exn + LessonPlan
}.

End Engine.
Import Engine.

(** ** Computations: engine-call log and exceptions *)

Definition M (A : Type) : Type := list call -> (exn + A) * list call.

Definition ret {A} (a : A) : M A := fun log => (inr a, log).

Definition bind {A B} (m : M A) (k : A -> M B) : M B :=
  fun log =>
    match m log with
    | (inl e, log') => (inl e, log')
    | (inr a, log') => k a log'
    end.

Definition raise {A} (e : exn) : M A := fun log => (inl e, log).

(** [try: body  except Exception as e: handler e] *)
Definition try_except {A} (body : M A) (handler : exn -> M A) : M A :=
  fun log =>
    match body log with
    | (inl e, log') => handler e log'
    | (inr a, log') => (inr a, log')
    end.

(** [if c: raise e] *)
Definition raise_if (c : bool) (e : exn) : M unit :=
  if c then raise e else ret tt.

Definition lift_opt {A} (o : option A) (e : exn) : M A :=
  match o with Some a => ret a | None => raise e end.

(** [for x in l: acc = body x acc] *)
Fixpoint for_each {A S} (l : list A) (body : A -> S -> M S) (acc : S) : M S :=
  match l with
  | [] => ret acc
  | x :: l' => bind (body x acc) (for_each l' body)
  end.

Declare Scope py_scope.
Delimit Scope py_scope with py.
Notation "x <- m ;; k" := (bind m (fun x => k))
  (at level 100, m at next level, right associativity) : py_scope.
Notation "m ;;; k" := (bind m (fun _ => k))
  (at level 100, right associativity) : py_scope.

(** [client.qna_engine.generate_questions] with keyword arguments [r]:
    the call is logged and the engine answers or raises. *)
Definition generate_questions (client : Educhain) (r : QnaRequest) : M QuestionList :=
  fun log => (qna_engine client r, log ++ [CallQna r]).

(** [client.content_engine.generate_lesson_plan] with keyword arguments
    [r]; the tool of the same name is [generate_lesson_plan] below. *)
Definition generate_lesson_plan_engine (client : Educhain) (r : LessonRequest)
  : M LessonPlan :=
  fun log => (content_engine client r, log ++ [CallLesson r]).

(** Running an operation from an empty log. *)
Definition run {A} (m : M A) : (exn + A) * list call := m [].
Definition outcome {A} (m : M A) : exn + A := fst (run m).
Definition calls {A} (m : M A) : list call := snd (run m).

(** ** The tools and resources registered by the server *)

Section Operations.

Variable client : Educhain.

Local Open Scope py_scope.

(** The value returned by the [except] branch of every tool. *)
Definition failure_result (e : exn) (topic : pystr) : pyval :=
  PyDict [ (lit "success", PyBool false);
           (lit "error", PyStr (str_exn e));
           (lit "topic", PyStr topic) ].

Definition mcq_entry (i : Z) (q : Question) : pyval :=
  PyDict [ (lit "question_number", PyInt i);
           (lit "question", PyStr (question q));
           (lit "options", str_list (options q));
           (lit "correct_answer", PyStr (correct_answer q));
           (lit "explanation", PyStr (explanation q)) ].

(** [if not topic.strip(): raise ValueError("Topic cannot be empty")] *)
Definition check_topic (topic : pystr) : M unit :=
  raise_if (str_not (strip topic)) (ValueError (lit "Topic cannot be empty")).

(** [if num_questions < 1 or num_questions > 10: raise ValueError(...)] *)
Definition check_num_questions (num_questions : Z) : M unit :=
  raise_if ((num_questions <? 1) || (num_questions >? 10))
    (ValueError (lit "Number of questions must be between 1 and 10")).

(** The keyword arguments [generate_mcq] passes to the engine. *)
Definition mcq_request (topic : pystr) (num_questions : Z)
    (difficulty_level custom_instructions : pystr) : QnaRequest :=
  {| q_topic := topic;
     q_num := num_questions;
     q_question_type := lit "Multiple Choice";
     q_difficulty_level := difficulty_level;
     q_custom_instructions := Some custom_instructions;
     q_prompt_template := None |}.

(** The [try] block of [generate_mcq]. *)
Definition generate_mcq_try (topic : pystr) (num_questions : Z)
    (difficulty_level custom_instructions : pystr) : M pyval :=
    ( check_topic topic ;;;
      check_num_questions num_questions ;;;
      qs <- generate_questions client
              (mcq_request topic num_questions difficulty_level custom_instructions) ;;
      let result : pydict :=
        [ (lit "success", PyBool true);
          (lit "topic", PyStr topic);
          (lit "num_questions", PyInt (Z.of_nat (length (questions qs))));
          (lit "difficulty_level", PyStr difficulty_level);
          (lit "questions", PyList []) ] in
      result <- for_each (enumerate (questions qs) 1)
                  (fun '(i, q) result =>
                     lift_opt (dict_append result (lit "questions") (mcq_entry i q))
                       (AttributeError (lit "append")))
                  result ;;
      ret (PyDict result) ).

Definition generate_mcq (topic : pystr) (num_questions : Z)
    (difficulty_level custom_instructions : pystr) : M pyval :=
  try_except
    (generate_mcq_try topic num_questions difficulty_level custom_instructions)
    (fun e => ret (failure_result e topic)).

(** [learning_objectives or []] *)
Definition or_empty (o : option (list pystr)) : list pystr :=
  match o with
  | Some (x :: l) => x :: l
  | _ => []
  end.

(** The keyword arguments [generate_lesson_plan] passes to the engine. *)
Definition lesson_request (topic duration grade_level : pystr)
    (learning_objectives : option (list pystr)) : LessonRequest :=
  {| l_topic := topic;
     l_duration := duration;
     l_grade_level := grade_level;
     l_learning_objectives := Some (or_empty learning_objectives) |}.

(** The [try] block of [generate_lesson_plan]. *)
Definition generate_lesson_plan_try (topic duration grade_level : pystr)
    (learning_objectives : option (list pystr)) : M pyval :=
    ( check_topic topic ;;;
      lesson <- generate_lesson_plan_engine client
                  (lesson_request topic duration grade_level learning_objectives) ;;
      ret (PyDict
        [ (lit "success", PyBool true);
          (lit "topic", PyStr topic);
          (lit "duration", PyStr duration);
          (lit "grade_level", PyStr grade_level);
          (lit "lesson_plan", PyDict
             [ (lit "title", PyStr (title lesson));
               (lit "objectives", str_list (objectives lesson));
               (lit "materials", str_list (materials lesson));
               (lit "introduction", PyStr (introduction lesson));
               (lit "main_content", main_content lesson);
               (lit "activities", activities lesson);
               (lit "assessment", PyStr (assessment lesson));
               (lit "conclusion", PyStr (conclusion lesson)) ]) ]) ).

Definition generate_lesson_plan (topic duration grade_level : pystr)
    (learning_objectives : option (list pystr)) : M pyval :=
  try_except
    (generate_lesson_plan_try topic duration grade_level learning_objectives)
    (fun e => ret (failure_result e topic)).

Definition nl : pystr := chr 10.
Definition indent : pystr := lit "                ".

(** The plain (not formatted) prompt template of [generate_flashcards]. *)
Definition custom_template : pystr :=
  nl ++ indent ++ lit "Generate {num} flashcards for the topic: {topic}"
  ++ nl ++ indent ++ lit "Difficulty level: {difficulty_level}"
  ++ nl ++ indent ++ lit "Card type: {card_type}"
  ++ nl ++ indent
  ++ nl ++ indent ++ lit "Format each flashcard with:"
  ++ nl ++ indent ++ lit "- Front: Question or term"
  ++ nl ++ indent ++ lit "- Back: Answer or definition"
  ++ nl ++ indent ++ lit "- Category: Subject category"
  ++ nl ++ indent
  ++ nl ++ indent
  ++ lit "Make sure the flashcards are educational and appropriate for the difficulty level."
  ++ nl ++ indent.

Definition flashcard_entry (topic difficulty_level : pystr) (i : Z) (q : Question)
  : pyval :=
  PyDict [ (lit "card_number", PyInt i);
           (lit "front", PyStr (question q));
           (lit "back", PyStr (correct_answer q));
           (lit "category", PyStr topic);
           (lit "difficulty", PyStr difficulty_level) ].

(** [if num_cards < 1 or num_cards > 20: raise ValueError(...)] *)
Definition check_num_cards (num_cards : Z) : M unit :=
  raise_if ((num_cards <? 1) || (num_cards >? 20))
    (ValueError (lit "Number of cards must be between 1 and 20")).

(** The keyword arguments [generate_flashcards] passes to the engine. *)
Definition flashcard_request (topic : pystr) (num_cards : Z)
    (difficulty_level card_type : pystr) : QnaRequest :=
  {| q_topic := topic;
     q_num := num_cards;
     q_question_type := lit "Short Answer";
     q_difficulty_level := difficulty_level;
     q_custom_instructions :=
       Some (lit "Create " ++ card_type ++ lit " flashcards");
     q_prompt_template := Some custom_template |}.

(** The [try] block of [generate_flashcards]. *)
Definition generate_flashcards_try (topic : pystr) (num_cards : Z)
    (difficulty_level card_type : pystr) : M pyval :=
    ( check_topic topic ;;;
      check_num_cards num_cards ;;;
      qs <- generate_questions client
              (flashcard_request topic num_cards difficulty_level card_type) ;;
      let result : pydict :=
        [ (lit "success", PyBool true);
          (lit "topic", PyStr topic);
          (lit "num_cards", PyInt (Z.of_nat (length (questions qs))));
          (lit "difficulty_level", PyStr difficulty_level);
          (lit "card_type", PyStr card_type);
          (lit "flashcards", PyList []) ] in
      result <- for_each (enumerate (questions qs) 1)
                  (fun '(i, q) result =>
                     lift_opt
                       (dict_append result (lit "flashcards")
                          (flashcard_entry topic difficulty_level i q))
                       (AttributeError (lit "append")))
                  result ;;
      ret (PyDict result) ).

Definition generate_flashcards (topic : pystr) (num_cards : Z)
    (difficulty_level card_type : pystr) : M pyval :=
  try_except
    (generate_flashcards_try topic num_cards difficulty_level card_type)
    (fun e => ret (failure_result e topic)).

(** The keyword arguments [get_topic_overview] passes to the engine. *)
Definition overview_request (topic : pystr) : LessonRequest :=
  {| l_topic := topic;
     l_duration := lit "Overview";
     l_grade_level := lit "General";
     l_learning_objectives := None |}.

Definition get_topic_overview (topic : pystr) : M pystr :=
  try_except
    ( overview <- generate_lesson_plan_engine client (overview_request topic) ;;
      ret ( nl ++ indent ++ lit "Topic Overview: " ++ topic
            ++ nl ++ indent
            ++ nl ++ indent ++ lit "Description: " ++ introduction overview
            ++ nl ++ indent
            ++ nl ++ indent ++ lit "Key Concepts:"
            ++ nl ++ indent
            ++ join (chr 10)
                 ((fun obj => bullet ++ lit " " ++ obj) <$> objectives overview)
            ++ nl ++ indent
            ++ nl ++ indent ++ lit "Materials Needed:"
            ++ nl ++ indent
            ++ join (chr 10)
                 ((fun mat => bullet ++ lit " " ++ mat) <$> materials overview)
            ++ nl ++ indent
            ++ nl ++ indent ++ lit "Assessment Methods:"
            ++ nl ++ indent ++ assessment overview
            ++ nl ++ indent ) )
    (fun e =>
       ret (lit "Error retrieving overview for " ++ topic ++ lit ": " ++ str_exn e)).

(** The keyword arguments [get_sample_questions] passes to the engine. *)
Definition sample_request (topic : pystr) : QnaRequest :=
  {| q_topic := topic;
     q_num := 3;
     q_question_type := lit "Multiple Choice";
     q_difficulty_level := lit "Medium";
     q_custom_instructions := None;
     q_prompt_template := None |}.

Definition get_sample_questions (topic : pystr) : M pystr :=
  try_except
    ( qs <- generate_questions client (sample_request topic) ;;
      let result := lit "Sample Questions for: " ++ topic ++ nl ++ nl in
      for_each (enumerate (questions qs) 1)
        (fun '(i, q) result =>
           let result :=
             result ++ (lit "Question " ++ str_of_int i ++ lit ": "
                        ++ question q ++ nl) in
           result <- for_each (enumerate (options q) 1)
                       (fun '(j, option) result =>
                          ret (result ++ (lit "  " ++ str_of_int j ++ lit ". "
                                          ++ option ++ nl)))
                       result ;;
           let result := result ++ (lit "Correct Answer: " ++ correct_answer q ++ nl) in
           let result :=
             result ++ (lit "Explanation: " ++ explanation q ++ nl ++ nl) in
           ret result)
        result )
    (fun e =>
       ret (lit "Error retrieving sample questions for " ++ topic ++ lit ": "
            ++ str_exn e)).

End Operations.

(** ** Start-up: [EduChainMCPServer.__init__], [run_server] and the main block *)

Module Server.

(** [os.environ] after [load_dotenv()]. *)
Definition getenv (environ : gmap pystr pystr) (name : pystr) : option pystr :=
  environ !! name.

(** [not api_key] for the value returned by [os.getenv]. *)
Definition not_key (api_key : option pystr) : bool :=
  match api_key with
  | None => true
  | Some k => str_not k
  end.

(** Keyword arguments of the [ChatGoogleGenerativeAI] constructor. *)
Record GeminiArgs : Type := {
  model : pystr;
  google_api_key : option pystr;
  temperature : Q;
  max_tokens : Z
}.

(** The part of [FastMCP] the server uses: a named registry of tools
    (by function name) and resource templates (by URI). *)
Record FastMCP : Type := {
  server_name : pystr;
  tools : list pystr;
  resources : list pystr
}.

Definition FastMCP_new (name : pystr) : FastMCP :=
  {| server_name := name; tools := []; resources := [] |}.

(** [@mcp.tool()] applied to a function of the given name. *)
Definition tool (mcp : FastMCP) (name : pystr) : FastMCP :=
  {| server_name := server_name mcp;
     tools := tools mcp ++ [name];
     resources := resources mcp |}.

(** [@mcp.resource(uri)] *)
Definition resource (mcp : FastMCP) (uri : pystr) : FastMCP :=
  {| server_name := server_name mcp;
     tools := tools mcp;
     resources := resources mcp ++ [uri] |}.

Definition registered (mcp : FastMCP) : list pystr := tools mcp ++ resources mcp.

Section Startup.

(** Objects of the external libraries. *)
Variables GeminiModel LLMConfigT : Type.

(** The external constructors and the blocking [FastMCP.run]; each
    raises, is interrupted, or returns. *)
Record Library : Type := {
  ChatGoogleGenerativeAI : GeminiArgs -> thrown + GeminiModel;
  LLMConfig : GeminiModel -> thrown + LLMConfigT;
  Educhain_new : LLMConfigT -> thrown + Educhain;
  mcp_run : FastMCP -> thrown + unit
}.

Variable lib : Library.

Record EduChainMCPServer : Type := {
  gemini_model : option GeminiModel;
  educhain_client : option Educhain;
  mcp_server : option FastMCP
}.

(** The fields as [__init__] sets them before [_initialize_components]. *)
Definition fresh : EduChainMCPServer :=
  {| gemini_model := None; educhain_client := None; mcp_server := None |}.

Definition GOOGLE_API_KEY : pystr := lit "GOOGLE_API_KEY".

(** The [except Exception] branch logs and re-raises, and an interrupt
    passes it by, so what the [try] body raises is what the method raises. *)
Definition _initialize_components (environ : gmap pystr pystr)
    (self : EduChainMCPServer) : thrown + EduChainMCPServer :=
  let api_key := getenv environ GOOGLE_API_KEY in
  if not_key api_key then
    inl (Exc (ValueError (lit "GOOGLE_API_KEY environment variable not set")))
  else
    match ChatGoogleGenerativeAI lib
            {| model := lit "gemini-2.0-flash-exp";
               google_api_key := api_key;
               temperature := 7 # 10;
               max_tokens := 2048 |} with
    | inl e => inl e
    | inr gm =>
        match LLMConfig lib gm with
        | inl e => inl e
        | inr gemini_config =>
            match Educhain_new lib gemini_config with
            | inl e => inl e
            | inr ec =>
                inr {| gemini_model := Some gm;
                       educhain_client := Some ec;
                       mcp_server :=
                         Some (FastMCP_new (lit "EduChain Educational Content Server")) |}
            end
        end
    end.

(** [EduChainMCPServer()] *)
Definition new_server (environ : gmap pystr pystr) : thrown + EduChainMCPServer :=
  _initialize_components environ fresh.

Definition setup_tools (mcp : FastMCP) : FastMCP :=
  tool (tool (tool mcp (lit "generate_mcq")) (lit "generate_lesson_plan"))
    (lit "generate_flashcards").

Definition setup_resources (mcp : FastMCP) : FastMCP :=
  resource (resource mcp (lit "educhain://topic/{topic}"))
    (lit "educhain://questions/{topic}").

(** What the process did: the registry handed to [FastMCP.run], if
    [run] was reached, the exception logged as fatal, the exit status
    ([None]: normal end), and whether it was stopped by the user. *)
Record Outcome : Type := {
  served : option FastMCP;
  failure : option exn;
  exit_code : option Z;
  interrupted : bool
}.

(** [run_server]: register, then run; an exception is logged and
    re-raised, an interrupt passes.  [None] for [self.mcp_server] is an
    attribute error on [None]. *)
Definition run_server (self : EduChainMCPServer) : option FastMCP * (thrown + unit) :=
  match mcp_server self with
  | None =>
      (None, inl (Exc (AttributeError (lit "'NoneType' object has no attribute 'tool'"))))
  | Some mcp =>
      let mcp := setup_resources (setup_tools mcp) in
      (Some mcp, mcp_run lib mcp)
  end.

(** The [if __name__ == "__main__"] block: on [KeyboardInterrupt] the
    stop is logged and the process ends normally; any [Exception] is
    logged as fatal and the process exits with status 1. *)
Definition main (environ : gmap pystr pystr) : Outcome :=
  match new_server environ with
  | inl KeyboardInterrupt =>
      {| served := None; failure := None; exit_code := None; interrupted := true |}
  | inl (Exc e) =>
      {| served := None; failure := Some e; exit_code := Some 1; interrupted := false |}
  | inr server =>
      match run_server server with
      | (mcp, inl KeyboardInterrupt) =>
          {| served := mcp; failure := None; exit_code := None; interrupted := true |}
      | (mcp, inl (Exc e)) =>
          {| served := mcp; failure := Some e; exit_code := Some 1;
             interrupted := false |}
      | (mcp, inr _) =>
          {| served := mcp; failure := None; exit_code := None; interrupted := false |}
      end
  end.

End Startup.

Arguments ChatGoogleGenerativeAI {GeminiModel LLMConfigT} _ _.
Arguments LLMConfig {GeminiModel LLMConfigT} _ _.
Arguments Educhain_new {GeminiModel LLMConfigT} _ _.
Arguments mcp_run {GeminiModel LLMConfigT} _ _.
Arguments _initialize_components {GeminiModel LLMConfigT} lib environ self.
Arguments new_server {GeminiModel LLMConfigT} lib environ.
Arguments run_server {GeminiModel LLMConfigT} lib self.
Arguments main {GeminiModel LLMConfigT} lib environ.
Arguments fresh {GeminiModel}.
Arguments gemini_model {GeminiModel} _.
Arguments educhain_client {GeminiModel} _.
Arguments mcp_server {GeminiModel} _.

End Server.

(** ** Reading results *)

(** [v[k]] for a returned mapping. *)
Definition py_get (v : pyval) (k : pystr) : option pyval :=
  match v with
  | PyDict d => dict_get d k
  | _ => None
  end.

(** [s.split(sep)] for a one-character separator. *)
Fixpoint split_on (sep : N) (s : pystr) : list pystr :=
  match s with
  | [] => [[]]
  | c :: s' =>
      if decide (c = sep) then [] :: split_on sep s'
      else match split_on sep s' with
           | [] => [[c]]
           | l :: ls => (c :: l) :: ls
           end
  end.

(** ** The renderings as the specification words them *)

Module Spec.

(** The uniform failure result of a tool-style operation. *)
Definition failure_mapping (topic msg : pystr) : pyval :=
  PyDict [ (lit "success", PyBool false);
           (lit "error", PyStr msg);
           (lit "topic", PyStr topic) ].

(** One bulleted line. *)
Definition bulleted (item : pystr) : pystr := bullet ++ lit " " ++ item.

(** An option line, numbered from 1. *)
Definition option_line (j : nat) (option : pystr) : pystr :=
  lit "  " ++ str_of_int (Z.of_nat j + 1) ++ lit ". " ++ option ++ chr 10.

(** The text block of the item at 0-based position [i]: question line,
    option lines, correct-answer line, explanation line, blank line. *)
Definition question_block (i : nat) (q : Question) : pystr :=
  lit "Question " ++ str_of_int (Z.of_nat i + 1) ++ lit ": " ++ question q ++ chr 10
  ++ concat (imap option_line (options q))
  ++ lit "Correct Answer: " ++ correct_answer q ++ chr 10
  ++ lit "Explanation: " ++ explanation q ++ chr 10
  ++ chr 10.

Definition sample_questions_text (topic : pystr) (qs : list Question) : pystr :=
  lit "Sample Questions for: " ++ topic ++ chr 10 ++ chr 10
  ++ concat (imap question_block qs).

Definition sample_questions_error (topic msg : pystr) : pystr :=
  lit "Error retrieving sample questions for " ++ topic ++ lit ": " ++ msg.

Definition overview_error (topic msg : pystr) : pystr :=
  lit "Error retrieving overview for " ++ topic ++ lit ": " ++ msg.

(** The success result of [generate_mcq]: entries numbered from 1 in
    the engine's order, the count being the number of returned items. *)
Definition mcq_item (i : nat) (q : Question) : pyval :=
  PyDict [ (lit "question_number", PyInt (Z.of_nat i + 1));
           (lit "question", PyStr (question q));
           (lit "options", PyList (PyStr <$> options q));
           (lit "correct_answer", PyStr (correct_answer q));
           (lit "explanation", PyStr (explanation q)) ].

Definition mcq_result (topic difficulty_level : pystr) (qs : list Question) : pyval :=
  PyDict [ (lit "success", PyBool true);
           (lit "topic", PyStr topic);
           (lit "num_questions", PyInt (Z.of_nat (length qs)));
           (lit "difficulty_level", PyStr difficulty_level);
           (lit "questions", PyList (imap mcq_item qs)) ].

(** The success result of [generate_flashcards]. *)
Definition flashcard (topic difficulty_level : pystr) (i : nat) (q : Question) : pyval :=
  PyDict [ (lit "card_number", PyInt (Z.of_nat i + 1));
           (lit "front", PyStr (question q));
           (lit "back", PyStr (correct_answer q));
           (lit "category", PyStr topic);
           (lit "difficulty", PyStr difficulty_level) ].

Definition flashcards_result (topic difficulty_level card_type : pystr)
    (qs : list Question) : pyval :=
  PyDict [ (lit "success", PyBool true);
           (lit "topic", PyStr topic);
           (lit "num_cards", PyInt (Z.of_nat (length qs)));
           (lit "difficulty_level", PyStr difficulty_level);
           (lit "card_type", PyStr card_type);
           (lit "flashcards", PyList (imap (flashcard topic difficulty_level) qs)) ].

(** The success result of [generate_lesson_plan]: every field of the plan. *)
Definition lesson_result (topic duration grade_level : pystr) (p : LessonPlan) : pyval :=
  PyDict [ (lit "success", PyBool true);
           (lit "topic", PyStr topic);
           (lit "duration", PyStr duration);
           (lit "grade_level", PyStr grade_level);
           (lit "lesson_plan", PyDict
              [ (lit "title", PyStr (title p));
                (lit "objectives", PyList (PyStr <$> objectives p));
                (lit "materials", PyList (PyStr <$> materials p));
                (lit "introduction", PyStr (introduction p));
                (lit "main_content", main_content p);
                (lit "activities", activities p);
                (lit "assessment", PyStr (assessment p));
                (lit "conclusion", PyStr (conclusion p)) ]) ].

(** The lines of a bulleted list placed in the indented overview: the
    first one follows the indentation of the surrounding text. *)
Definition bulleted_block (items : list pystr) : list pystr :=
  match bulleted <$> items with
  | [] => [indent]
  | first :: rest => (indent ++ first) :: rest
  end.

(** The overview, line by line. *)
Definition overview_lines (topic : pystr) (p : LessonPlan) : list pystr :=
  [ []; indent ++ lit "Topic Overview: " ++ topic;
    indent; indent ++ lit "Description: " ++ introduction p;
    indent; indent ++ lit "Key Concepts:" ]
  ++ bulleted_block (objectives p)
  ++ [ indent; indent ++ lit "Materials Needed:" ]
  ++ bulleted_block (materials p)
  ++ [ indent; indent ++ lit "Assessment Methods:";
       indent ++ assessment p; indent ].

(** Short-answer items that agree on question and correct answer. *)
Definition same_card (q q' : Question) : Prop :=
  question q = question q' /\ correct_answer q = correct_answer q'.

End Spec.

(** ** Stub engines and environments used to run the operations *)

Module Stub.

Definition q1 : Question :=
  {| question := lit "Which gas do plants absorb?";
     options := [lit "Oxygen"; lit "Carbon dioxide"; lit "Nitrogen"];
     correct_answer := lit "Carbon dioxide";
     explanation := lit "Carbon dioxide is fixed in the Calvin cycle." |}.

Definition q2 : Question :=
  {| question := lit "Where does photosynthesis take place?";
     options := [lit "Mitochondria"; lit "Chloroplast"];
     correct_answer := lit "Chloroplast";
     explanation := lit "Chloroplasts hold the chlorophyll." |}.

Definition items : QuestionList := {| questions := [q1; q2] |}.

(** [q1] and [q2] with other options and explanations. *)
Definition items' : QuestionList :=
  {| questions :=
       [ {| question := question q1; options := [];
            correct_answer := correct_answer q1; explanation := lit "" |};
         {| question := question q2; options := [lit "x"];
            correct_answer := correct_answer q2; explanation := lit "y" |} ] |}.

Definition plan : LessonPlan :=
  {| title := lit "Photosynthesis";
     objectives := [lit "Name the inputs"; lit "Name the outputs"];
     materials := [lit "Leaf"; lit "Lamp"; lit "Beaker"];
     introduction := lit "How plants make sugar.";
     main_content := PyStr (lit "Light and dark reactions");
     activities := PyList [PyStr (lit "Leaf disk assay")];
     assessment := lit "Exit ticket";
     conclusion := lit "Recap" |}.

(** An engine that answers every request. *)
Definition ok : Educhain :=
  {| qna_engine := fun _ => inr items; content_engine := fun _ => inr plan |}.

Definition ok' : Educhain :=
  {| qna_engine := fun _ => inr items'; content_engine := fun _ => inr plan |}.

(** An engine that raises on every request. *)
Definition boom : exn := UpstreamError (lit "quota exceeded").

Definition failing : Educhain :=
  {| qna_engine := fun _ => inl boom; content_engine := fun _ => inl boom |}.

Definition topic : pystr := lit "Photosynthesis".

(** External constructors that succeed; the model object is its arguments. *)
Definition lib : Server.Library Server.GeminiArgs unit :=
  {| Server.ChatGoogleGenerativeAI := fun a => inr a;
     Server.LLMConfig := fun _ => inr tt;
     Server.Educhain_new := fun _ => inr ok;
     Server.mcp_run := fun _ => inr tt |}.

Definition env_unset : gmap pystr pystr := ∅.
Definition env_empty : gmap pystr pystr := {[ lit "GOOGLE_API_KEY" := lit "" ]}.
Definition env_set : gmap pystr pystr := {[ lit "GOOGLE_API_KEY" := lit "AIza-key" ]}.

End Stub.

(** ** The text of [get_sample_questions], line by line *)

Module Lines.

(** Lines, each ended by a newline. *)
Definition unlines (ls : list pystr) : pystr :=
  concat ((fun l => l ++ chr 10) <$> ls).

Definition option_text (j : nat) (option : pystr) : pystr :=
  lit "  " ++ str_of_int (Z.of_nat j + 1) ++ lit ". " ++ option.

(** The lines of the item at 0-based position [i], the last one empty. *)
Definition block_lines (i : nat) (q : Question) : list pystr :=
  [ lit "Question " ++ str_of_int (Z.of_nat i + 1) ++ lit ": " ++ question q ]
  ++ imap option_text (options q)
  ++ [ lit "Correct Answer: " ++ correct_answer q;
       lit "Explanation: " ++ explanation q;
       [] ].

Definition sample_lines (topic : pystr) (qs : list Question) : list pystr :=
  [ lit "Sample Questions for: " ++ topic; [] ] ++ concat (imap block_lines qs).

(** An item none of whose texts contains a newline. *)
Definition single_line (q : Question) : Prop :=
  (10%N ∉ question q) /\ Forall (fun o => 10%N ∉ o) (options q)
  /\ (10%N ∉ correct_answer q) /\ (10%N ∉ explanation q).

End Lines.

(** ** The set-up test of [test_educhain.py] *)

Module TestSetup.

(** Keyword arguments the test passes to [ChatGoogleGenerativeAI]. *)
Record SetupArgs : Type := {
  model : pystr;
  google_api_key : option pystr;
  temperature : Q
}.

(** The requests of the two generation checks. *)
Definition mcq_request : QnaRequest :=
  {| q_topic := lit "Python Programming Basics";
     q_num := 3;
     q_question_type := lit "Multiple Choice";
     q_difficulty_level := lit "Beginner";
     q_custom_instructions := None;
     q_prompt_template := None |}.

Definition lesson_request : LessonRequest :=
  {| l_topic := lit "Python Programming Basics";
     l_duration := lit "45 minutes";
     l_grade_level := lit "High School";
     l_learning_objectives := None |}.

(** A call of an external constructor: it raises or returns, and is not
    an engine call. *)
Definition construct {A} (r : exn + A) : M A := fun log => (r, log).

Section Setup.

Variables GeminiModel LLMConfigT : Type.

Record Library : Type := {
  ChatGoogleGenerativeAI : SetupArgs -> exn + GeminiModel;
  LLMConfig : GeminiModel -> exn + LLMConfigT;
  Educhain_new : LLMConfigT -> exn + Educhain
}.

Variable lib : Library.

Local Open Scope py_scope.

(** The constructions that lead to the client; the key is passed as
    [os.getenv] returns it, without a check. *)
Definition make_client (environ : gmap pystr pystr) : M Educhain :=
  ( gemini_model <- construct (ChatGoogleGenerativeAI lib
                      {| model := lit "gemini-2.0-flash-exp";
                         google_api_key := Server.getenv environ (lit "GOOGLE_API_KEY");
                         temperature := 7 # 10 |}) ;;
    gemini_config <- construct (LLMConfig lib gemini_model) ;;
    client <- construct (Educhain_new lib gemini_config) ;;
    ret client ).

(** [test_educhain_setup()]; the [print] calls are left out. *)
Definition test_educhain_setup (environ : gmap pystr pystr) : M bool :=
  try_except
    ( client <- make_client environ ;;
      mcq <- generate_questions client mcq_request ;;
      lesson <- generate_lesson_plan_engine client lesson_request ;;
      ret true )
    (fun e => ret false).

End Setup.

Arguments ChatGoogleGenerativeAI {GeminiModel LLMConfigT} _ _.
Arguments LLMConfig {GeminiModel LLMConfigT} _ _.
Arguments Educhain_new {GeminiModel LLMConfigT} _ _.
Arguments make_client {GeminiModel LLMConfigT} lib environ.
Arguments test_educhain_setup {GeminiModel LLMConfigT} lib environ.

(** Constructors that succeed, handing out the given client. *)
Definition lib_of (client : Educhain) : Library unit unit :=
  {| ChatGoogleGenerativeAI := fun _ => inr tt;
     LLMConfig := fun _ => inr tt;
     Educhain_new := fun _ => inr client |}.

End TestSetup.

(** * Properties *)

(** ** Strings *)

Lemma str_not_true (s : pystr) : str_not s = true <-> s = [].
Proof. destruct s; simpl; split; congruence. Qed.

Lemma lstrip_nil (s : pystr) : lstrip s = [] <-> blank s.
Proof.
  unfold blank. induction s as [|c s IH]; simpl.
  - split; [constructor | reflexivity].
  - destruct (isspace c) eqn:Hc.
    + rewrite IH. split; [by constructor | by inversion 1].
    + split; [discriminate | inversion 1; congruence].
Qed.

Lemma blank_lstrip (s : pystr) : blank (lstrip s) <-> blank s.
Proof.
  unfold blank. induction s as [|c s IH]; simpl; [done|].
  destruct (isspace c) eqn:Hc; [|done].
  rewrite IH. split; [by constructor | by inversion 1].
Qed.

Lemma reverse_is_nil {A} (l : list A) : reverse l = [] <-> l = [].
Proof.
  split; [|by intros ->].
  intros H. apply (f_equal length) in H. rewrite length_reverse in H.
  by destruct l.
Qed.

(** [not topic.strip()] holds exactly for a blank topic. *)
Lemma strip_blank (s : pystr) : str_not (strip s) = true <-> blank s.
Proof.
  unfold strip, rstrip.
  etrans; [apply str_not_true|].
  etrans; [apply reverse_is_nil|].
  etrans; [apply lstrip_nil|].
  etrans; [apply Forall_reverse|]. apply blank_lstrip.
Qed.

Lemma strip_not_blank (s : pystr) : ¬ blank s -> str_not (strip s) = false.
Proof.
  intros H. destruct (str_not (strip s)) eqn:E; [|done].
  by apply strip_blank in E.
Qed.

Lemma fmap_enumerate {A B} (g : Z * A -> B) (l : list A) (start : Z) :
  g <$> enumerate l start = imap (fun i x => g (start + Z.of_nat i, x)) l.
Proof.
  revert start. induction l as [|x l IH]; intros start; simpl; [done|].
  rewrite IH. f_equal; [do 2 f_equal; lia|].
  apply imap_ext. intros i y _. simpl. do 2 f_equal. lia.
Qed.

Lemma enumerate_imap {A B} (f : Z -> A -> B) (l : list A) (start : Z) :
  (fun p => f p.1 p.2) <$> enumerate l start
  = imap (fun i x => f (start + Z.of_nat i) x) l.
Proof. by rewrite fmap_enumerate. Qed.

Lemma split_on_plain (sep : N) (p : pystr) :
  sep ∉ p -> split_on sep p = [p].
Proof.
  induction p as [|c p IH]; [done|]. intros [Hc Hp]%not_elem_of_cons.
  cbn [split_on]. rewrite decide_False by done. by rewrite IH.
Qed.

Lemma split_on_app_sep (sep : N) (p rest : pystr) :
  sep ∉ p -> split_on sep (p ++ sep :: rest) = p :: split_on sep rest.
Proof.
  induction p as [|c p IH]; intros Hp.
  - change ([] ++ sep :: rest) with (sep :: rest).
    cbn [split_on]. by rewrite decide_True.
  - apply not_elem_of_cons in Hp as [Hc Hp].
    change ((c :: p) ++ sep :: rest) with (c :: (p ++ sep :: rest)).
    cbn [split_on]. rewrite decide_False by done. by rewrite IH.
Qed.

Lemma join_cons_cons (sep p p' : pystr) (ps : list pystr) :
  join sep (p :: p' :: ps) = p ++ sep ++ join sep (p' :: ps).
Proof. reflexivity. Qed.

(** Splitting a joined block at the separator gives the parts back. *)
Lemma split_on_join (sep : N) (parts : list pystr) :
  parts <> [] -> Forall (fun p => sep ∉ p) parts ->
  split_on sep (join [sep] parts) = parts.
Proof.
  induction parts as [|p ps IH]; [done|]. intros _ Hall.
  apply Forall_cons in Hall as [Hp Hps].
  destruct ps as [|p' ps].
  - by apply split_on_plain.
  - rewrite join_cons_cons.
    change ([sep] ++ join [sep] (p' :: ps)) with (sep :: join [sep] (p' :: ps)).
    rewrite split_on_app_sep by done. by rewrite IH.
Qed.

(** ** Dictionaries and loops *)

Lemma dict_append_last (hd : pydict) (k : pystr) (l : list pyval) (v : pyval) :
  k ∉ dict_keys hd ->
  dict_append (hd ++ [(k, PyList l)]) k v = Some (hd ++ [(k, PyList (l ++ [v]))]).
Proof.
  induction hd as [|[k' x] hd IH]; simpl; intros Hk.
  - by rewrite decide_True.
  - apply not_elem_of_cons in Hk as [Hne Hk].
    rewrite decide_False by done. by rewrite IH.
Qed.

(** The appending loops of [generate_mcq] and [generate_flashcards]
    never raise and extend the list under [k] by one entry per item. *)
Lemma for_each_append (entry : Z -> Question -> pyval) (err : exn)
    (hd : pydict) (k : pystr) :
  k ∉ dict_keys hd ->
  forall (items : list (Z * Question)) (acc : list pyval) (log : list call),
    for_each items
      (fun '(i, q) result => lift_opt (dict_append result k (entry i q)) err)
      (hd ++ [(k, PyList acc)]) log
    = (inr (hd ++ [(k, PyList (acc ++ ((fun p => entry p.1 p.2) <$> items)))]), log).
Proof.
  intros Hk items. induction items as [|[i q] items IH]; intros acc log; simpl.
  - by rewrite app_nil_r.
  - unfold bind. rewrite dict_append_last by done. simpl.
    rewrite IH. by rewrite <- app_assoc.
Qed.

(** A loop whose body appends a piece of text built from the current
    item never raises and appends the pieces in order. *)
Lemma for_each_pure {A} (g : A -> pystr) (body : A -> pystr -> M pystr) :
  (forall x acc log, body x acc log = (inr (acc ++ g x), log)) ->
  forall (l : list A) (acc : pystr) (log : list call),
    for_each l body acc log = (inr (acc ++ concat (g <$> l)), log).
Proof.
  intros Hbody l. induction l as [|x l IH]; intros acc log; simpl.
  - by rewrite app_nil_r.
  - unfold bind. rewrite Hbody, IH. by rewrite <- app_assoc.
Qed.

Lemma try_except_run {A} (body : M A) (h : exn -> A) :
  run (try_except body (fun e => ret (h e)))
  = match run body with
    | (inl e, log) => (inr (h e), log)
    | (inr a, log) => (inr a, log)
    end.
Proof. unfold run, try_except. by destruct (body []) as [[e|a] log]. Qed.

Lemma join_cons_ne (sep p : pystr) (l : list pystr) :
  l <> [] -> join sep (p :: l) = p ++ sep ++ join sep l.
Proof. by destruct l. Qed.

Lemma join_app (sep : pystr) (l1 l2 : list pystr) :
  l1 <> [] -> l2 <> [] ->
  join sep (l1 ++ l2) = join sep l1 ++ sep ++ join sep l2.
Proof.
  intros H1 H2. induction l1 as [|p l1 IH]; [done|].
  destruct l1 as [|p' l1].
  - change ([p] ++ l2) with (p :: l2). by rewrite join_cons_ne.
  - change ((p :: p' :: l1) ++ l2) with (p :: ((p' :: l1) ++ l2)).
    rewrite join_cons_ne by done. rewrite IH by done.
    rewrite join_cons_cons. by rewrite <- !app_assoc.
Qed.

Lemma bulleted_block_ne (items : list pystr) : Spec.bulleted_block items <> [].
Proof. unfold Spec.bulleted_block. by destruct items. Qed.

Lemma join_bulleted_block (items : list pystr) :
  join nl (Spec.bulleted_block items) = indent ++ join nl (Spec.bulleted <$> items).
Proof.
  unfold Spec.bulleted_block.
  destruct items as [|x [|y items]]; cbn [fmap list_fmap join].
  - by rewrite app_nil_r.
  - done.
  - by rewrite <- app_assoc.
Qed.

(** ** Running the checks *)

Lemma check_topic_blank (topic : pystr) (log : list call) :
  blank topic ->
  check_topic topic log = (inl (ValueError (lit "Topic cannot be empty")), log).
Proof.
  intros H. unfold check_topic. apply strip_blank in H. by rewrite H.
Qed.

Lemma check_topic_ok (topic : pystr) (log : list call) :
  ¬ blank topic -> check_topic topic log = (inr tt, log).
Proof.
  intros H. unfold check_topic. by rewrite (strip_not_blank _ H).
Qed.

Lemma check_num_questions_out (n : Z) (log : list call) :
  n < 1 \/ 10 < n ->
  check_num_questions n log
  = (inl (ValueError (lit "Number of questions must be between 1 and 10")), log).
Proof.
  intros H. unfold check_num_questions.
  replace ((n <? 1) || (n >? 10)) with true; [done|].
  symmetry. apply orb_true_iff. destruct H; [left|right]; lia.
Qed.

Lemma check_num_questions_in (n : Z) (log : list call) :
  1 <= n <= 10 -> check_num_questions n log = (inr tt, log).
Proof.
  intros H. unfold check_num_questions.
  replace ((n <? 1) || (n >? 10)) with false; [done|].
  symmetry. apply orb_false_iff. lia.
Qed.

Lemma check_num_cards_out (n : Z) (log : list call) :
  n < 1 \/ 20 < n ->
  check_num_cards n log
  = (inl (ValueError (lit "Number of cards must be between 1 and 20")), log).
Proof.
  intros H. unfold check_num_cards.
  replace ((n <? 1) || (n >? 20)) with true; [done|].
  symmetry. apply orb_true_iff. destruct H; [left|right]; lia.
Qed.

Lemma check_num_cards_in (n : Z) (log : list call) :
  1 <= n <= 20 -> check_num_cards n log = (inr tt, log).
Proof.
  intros H. unfold check_num_cards.
  replace ((n <? 1) || (n >? 20)) with false; [done|].
  symmetry. apply orb_false_iff. lia.
Qed.

(** ** The [try] blocks, case by case *)

Section TryBlocks.

Variable client : Educhain.

Lemma generate_mcq_try_run (topic : pystr) (n : Z) (d ci : pystr) :
  run (generate_mcq_try client topic n d ci)
  = if decide (blank topic) then
      (inl (ValueError (lit "Topic cannot be empty")), [])
    else if decide (1 <= n <= 10) then
      ( match qna_engine client (mcq_request topic n d ci) with
        | inl e => inl e
        | inr qs => inr (Spec.mcq_result topic d (questions qs))
        end,
        [CallQna (mcq_request topic n d ci)] )
    else
      (inl (ValueError (lit "Number of questions must be between 1 and 10")), []).
Proof.
  unfold run, generate_mcq_try, bind.
  destruct (decide (blank topic)) as [Hb|Hb].
  { by rewrite check_topic_blank. }
  rewrite check_topic_ok by done.
  destruct (decide (1 <= n <= 10)) as [Hn|Hn].
  2:{ rewrite check_num_questions_out by lia. done. }
  rewrite check_num_questions_in by done.
  unfold generate_questions. simpl app.
  destruct (qna_engine client (mcq_request topic n d ci)) as [e|qs]; [done|].
  assert (Hk : lit "questions" ∉ dict_keys
    [ (lit "success", PyBool true); (lit "topic", PyStr topic);
      (lit "num_questions", PyInt (Z.of_nat (length (questions qs))));
      (lit "difficulty_level", PyStr d) ]).
  { vm_compute. intros H. repeat (apply elem_of_cons in H as [H|H]; [discriminate|]).
    by apply elem_of_nil in H. }
  match goal with
  | |- context [for_each ?l ?b ?r ?lg] =>
      rewrite (for_each_append mcq_entry _ _ _ Hk l [] lg : for_each l b r lg = _)
  end.
  unfold ret, Spec.mcq_result. simpl app. rewrite (enumerate_imap mcq_entry).
  rewrite (imap_ext _ Spec.mcq_item); [done|].
  intros i q _. unfold Spec.mcq_item, mcq_entry, str_list.
  by rewrite (Z.add_comm 1).
Qed.

Lemma generate_flashcards_try_run (topic : pystr) (n : Z) (d ct : pystr) :
  run (generate_flashcards_try client topic n d ct)
  = if decide (blank topic) then
      (inl (ValueError (lit "Topic cannot be empty")), [])
    else if decide (1 <= n <= 20) then
      ( match qna_engine client (flashcard_request topic n d ct) with
        | inl e => inl e
        | inr qs => inr (Spec.flashcards_result topic d ct (questions qs))
        end,
        [CallQna (flashcard_request topic n d ct)] )
    else
      (inl (ValueError (lit "Number of cards must be between 1 and 20")), []).
Proof.
  unfold run, generate_flashcards_try, bind.
  destruct (decide (blank topic)) as [Hb|Hb].
  { by rewrite check_topic_blank. }
  rewrite check_topic_ok by done.
  destruct (decide (1 <= n <= 20)) as [Hn|Hn].
  2:{ rewrite check_num_cards_out by lia. done. }
  rewrite check_num_cards_in by done.
  unfold generate_questions. simpl app.
  destruct (qna_engine client (flashcard_request topic n d ct)) as [e|qs]; [done|].
  assert (Hk : lit "flashcards" ∉ dict_keys
    [ (lit "success", PyBool true); (lit "topic", PyStr topic);
      (lit "num_cards", PyInt (Z.of_nat (length (questions qs))));
      (lit "difficulty_level", PyStr d); (lit "card_type", PyStr ct) ]).
  { vm_compute. intros H. repeat (apply elem_of_cons in H as [H|H]; [discriminate|]).
    by apply elem_of_nil in H. }
  match goal with
  | |- context [for_each ?l ?b ?r ?lg] =>
      rewrite (for_each_append (flashcard_entry topic d) _ _ _ Hk l [] lg
               : for_each l b r lg = _)
  end.
  unfold ret, Spec.flashcards_result. simpl app.
  rewrite (enumerate_imap (flashcard_entry topic d)).
  rewrite (imap_ext _ (Spec.flashcard topic d)); [done|].
  intros i q _. unfold Spec.flashcard, flashcard_entry.
  by rewrite (Z.add_comm 1).
Qed.

Lemma generate_lesson_plan_try_run (topic du g : pystr) (lo : option (list pystr)) :
  run (generate_lesson_plan_try client topic du g lo)
  = if decide (blank topic) then
      (inl (ValueError (lit "Topic cannot be empty")), [])
    else
      ( match content_engine client (lesson_request topic du g lo) with
        | inl e => inl e
        | inr p => inr (Spec.lesson_result topic du g p)
        end,
        [CallLesson (lesson_request topic du g lo)] ).
Proof.
  unfold run, generate_lesson_plan_try, bind.
  destruct (decide (blank topic)) as [Hb|Hb].
  { by rewrite check_topic_blank. }
  rewrite check_topic_ok by done.
  unfold generate_lesson_plan_engine. simpl app.
  by destruct (content_engine client (lesson_request topic du g lo)).
Qed.

(** The two resources call the engine first thing, whatever the topic. *)
Lemma get_topic_overview_run (topic : pystr) :
  run (get_topic_overview client topic)
  = ( match content_engine client (overview_request topic) with
      | inl e => inr (Spec.overview_error topic (str_exn e))
      | inr p => inr (join nl (Spec.overview_lines topic p))
      end,
      [CallLesson (overview_request topic)] ).
Proof.
  unfold run, get_topic_overview, try_except, bind, generate_lesson_plan_engine.
  rewrite app_nil_l.
  destruct (content_engine client (overview_request topic)) as [e|p]; [done|].
  unfold ret. do 2 f_equal. unfold Spec.overview_lines.
  assert (Hne : forall items rest, Spec.bulleted_block items ++ rest <> []).
  { intros items rest [H _]%app_eq_nil. by apply bulleted_block_ne in H. }
  rewrite !join_app by (done || apply Hne || apply bulleted_block_ne).
  rewrite !join_bulleted_block. cbn [join]. unfold Spec.bulleted, chr, nl.
  rewrite <- !app_assoc. reflexivity.
Qed.

Lemma get_sample_questions_run (topic : pystr) :
  run (get_sample_questions client topic)
  = ( match qna_engine client (sample_request topic) with
      | inl e => inr (Spec.sample_questions_error topic (str_exn e))
      | inr qs => inr (Spec.sample_questions_text topic (questions qs))
      end,
      [CallQna (sample_request topic)] ).
Proof.
  unfold run, get_sample_questions, try_except, bind, generate_questions.
  rewrite app_nil_l.
  destruct (qna_engine client (sample_request topic)) as [e|qs]; [done|].
  rewrite (for_each_pure
    (fun p : Z * Question =>
       lit "Question " ++ str_of_int p.1 ++ lit ": " ++ question p.2 ++ nl
       ++ concat ((fun o : Z * pystr =>
                     lit "  " ++ str_of_int o.1 ++ lit ". " ++ o.2 ++ nl)
                  <$> enumerate (options p.2) 1)
       ++ lit "Correct Answer: " ++ correct_answer p.2 ++ nl
       ++ lit "Explanation: " ++ explanation p.2 ++ nl ++ nl)).
  - unfold Spec.sample_questions_text, nl, chr.
    rewrite fmap_enumerate, <- !app_assoc.
    rewrite (imap_ext _ Spec.question_block); [done|]. intros i q _.
    unfold Spec.question_block, chr. cbn [fst snd].
    rewrite fmap_enumerate.
    rewrite (imap_ext _ Spec.option_line); [by rewrite (Z.add_comm 1)|].
    intros j o _. unfold Spec.option_line, chr. cbn [fst snd].
    by rewrite (Z.add_comm 1).
  - intros [i q] acc log. unfold bind.
    rewrite (for_each_pure
      (fun o : Z * pystr => lit "  " ++ str_of_int o.1 ++ lit ". " ++ o.2 ++ nl)).
    + unfold ret. cbn [fst snd]. by rewrite <- !app_assoc.
    + by intros [j o] acc' log'.
Qed.

End TryBlocks.

(** ** The tools, case by case *)

Section Tools.

Variable client : Educhain.

Lemma generate_mcq_run (topic : pystr) (n : Z) (d ci : pystr) :
  run (generate_mcq client topic n d ci)
  = if decide (blank topic) then
      (inr (Spec.failure_mapping topic (lit "Topic cannot be empty")), [])
    else if decide (1 <= n <= 10) then
      ( inr match qna_engine client (mcq_request topic n d ci) with
            | inl e => Spec.failure_mapping topic (str_exn e)
            | inr qs => Spec.mcq_result topic d (questions qs)
            end,
        [CallQna (mcq_request topic n d ci)] )
    else
      ( inr (Spec.failure_mapping topic
               (lit "Number of questions must be between 1 and 10")), [] ).
Proof.
  unfold generate_mcq. rewrite try_except_run, generate_mcq_try_run.
  repeat case_decide; try done.
  by destruct (qna_engine client (mcq_request topic n d ci)).
Qed.

Lemma generate_flashcards_run (topic : pystr) (n : Z) (d ct : pystr) :
  run (generate_flashcards client topic n d ct)
  = if decide (blank topic) then
      (inr (Spec.failure_mapping topic (lit "Topic cannot be empty")), [])
    else if decide (1 <= n <= 20) then
      ( inr match qna_engine client (flashcard_request topic n d ct) with
            | inl e => Spec.failure_mapping topic (str_exn e)
            | inr qs => Spec.flashcards_result topic d ct (questions qs)
            end,
        [CallQna (flashcard_request topic n d ct)] )
    else
      ( inr (Spec.failure_mapping topic
               (lit "Number of cards must be between 1 and 20")), [] ).
Proof.
  unfold generate_flashcards. rewrite try_except_run, generate_flashcards_try_run.
  repeat case_decide; try done.
  by destruct (qna_engine client (flashcard_request topic n d ct)).
Qed.

Lemma generate_lesson_plan_run (topic du g : pystr) (lo : option (list pystr)) :
  run (generate_lesson_plan client topic du g lo)
  = if decide (blank topic) then
      (inr (Spec.failure_mapping topic (lit "Topic cannot be empty")), [])
    else
      ( inr match content_engine client (lesson_request topic du g lo) with
            | inl e => Spec.failure_mapping topic (str_exn e)
            | inr p => Spec.lesson_result topic du g p
            end,
        [CallLesson (lesson_request topic du g lo)] ).
Proof.
  unfold generate_lesson_plan. rewrite try_except_run, generate_lesson_plan_try_run.
  case_decide; [done|].
  by destruct (content_engine client (lesson_request topic du g lo)).
Qed.

End Tools.

Lemma contains_middle (pre s post : pystr) : contains (pre ++ s ++ post) s.
Proof. by exists pre, post. Qed.

Lemma topic_not_blank : ¬ blank Stub.topic.
Proof. intros [H _]%Forall_cons. vm_compute in H. discriminate H. Qed.

Lemma space_blank : blank (lit " ").
Proof. by repeat constructor. Qed.

(** * The claims *)






(** C2.  The three tools never propagate an exception: each always
    returns a value; whatever exception the [try] block raises, from
    validation or from the engine, becomes exactly the mapping
    [{success: False, error: str(e), topic: topic}]; and when the engine
    raises [e] on valid input that mapping carries the message of [e], which
    is non-empty when the engine's message is. *)
Theorem tool_exceptions_become_failure_mappings (client : Educhain) (topic : pystr) :
  (forall n d ci,
      (exists v, outcome (generate_mcq client topic n d ci) = inr v)
      /\ (forall e log,
            run (generate_mcq_try client topic n d ci) = (inl e, log) ->
            run (generate_mcq client topic n d ci)
            = (inr (PyDict [ (lit "success", PyBool false);
                             (lit "error", PyStr (str_exn e));
                             (lit "topic", PyStr topic) ]), log))
      /\ (forall e,
            ¬ blank topic -> 1 <= n <= 10 ->
            qna_engine client (mcq_request topic n d ci) = inl e ->
            exists v, outcome (generate_mcq client topic n d ci) = inr v
              /\ py_get v (lit "success") = Some (PyBool false)
              /\ py_get v (lit "error") = Some (PyStr (str_exn e))
              /\ py_get v (lit "topic") = Some (PyStr topic)
              /\ (str_exn e <> [] -> py_get v (lit "error") <> Some (PyStr []))))
  /\ (forall du g lo,
      (exists v, outcome (generate_lesson_plan client topic du g lo) = inr v)
      /\ (forall e log,
            run (generate_lesson_plan_try client topic du g lo) = (inl e, log) ->
            run (generate_lesson_plan client topic du g lo)
            = (inr (PyDict [ (lit "success", PyBool false);
                             (lit "error", PyStr (str_exn e));
                             (lit "topic", PyStr topic) ]), log))
      /\ (forall e,
            ¬ blank topic ->
            content_engine client (lesson_request topic du g lo) = inl e ->
            exists v, outcome (generate_lesson_plan client topic du g lo) = inr v
              /\ py_get v (lit "success") = Some (PyBool false)
              /\ py_get v (lit "error") = Some (PyStr (str_exn e))
              /\ py_get v (lit "topic") = Some (PyStr topic)
              /\ (str_exn e <> [] -> py_get v (lit "error") <> Some (PyStr []))))
  /\ (forall n d ct,
      (exists v, outcome (generate_flashcards client topic n d ct) = inr v)
      /\ (forall e log,
            run (generate_flashcards_try client topic n d ct) = (inl e, log) ->
            run (generate_flashcards client topic n d ct)
            = (inr (PyDict [ (lit "success", PyBool false);
                             (lit "error", PyStr (str_exn e));
                             (lit "topic", PyStr topic) ]), log))
      /\ (forall e,
            ¬ blank topic -> 1 <= n <= 20 ->
            qna_engine client (flashcard_request topic n d ct) = inl e ->
            exists v, outcome (generate_flashcards client topic n d ct) = inr v
              /\ py_get v (lit "success") = Some (PyBool false)
              /\ py_get v (lit "error") = Some (PyStr (str_exn e))
              /\ py_get v (lit "topic") = Some (PyStr topic)
              /\ (str_exn e <> [] -> py_get v (lit "error") <> Some (PyStr [])))).
Proof.
  assert (Hget : forall m,
    py_get (Spec.failure_mapping topic m) (lit "success") = Some (PyBool false)
    /\ py_get (Spec.failure_mapping topic m) (lit "error") = Some (PyStr m)
    /\ py_get (Spec.failure_mapping topic m) (lit "topic") = Some (PyStr topic)
    /\ (m <> [] -> py_get (Spec.failure_mapping topic m) (lit "error") <> Some (PyStr []))).
  { intros m. repeat split. intros Hm. change (Some (PyStr m) <> Some (PyStr [])).
    congruence. }
  split; [|split].
  - intros n d ci. split; [|split].
    + unfold outcome. rewrite generate_mcq_run. repeat case_decide; by eexists.
    + intros e log Htry. unfold generate_mcq. rewrite try_except_run. by rewrite Htry.
    + intros e Hb Hn He. eexists. split; [|apply Hget].
      unfold outcome. rewrite generate_mcq_run.
      rewrite decide_False, decide_True by done. by rewrite He.
  - intros du g lo. split; [|split].
    + unfold outcome. rewrite generate_lesson_plan_run. case_decide; by eexists.
    + intros e log Htry. unfold generate_lesson_plan. rewrite try_except_run.
      by rewrite Htry.
    + intros e Hb He. eexists. split; [|apply Hget].
      unfold outcome. rewrite generate_lesson_plan_run.
      rewrite decide_False by done. by rewrite He.
  - intros n d ct. split; [|split].
    + unfold outcome. rewrite generate_flashcards_run. repeat case_decide; by eexists.
    + intros e log Htry. unfold generate_flashcards. rewrite try_except_run.
      by rewrite Htry.
    + intros e Hb Hn He. eexists. split; [|apply Hget].
      unfold outcome. rewrite generate_flashcards_run.
      rewrite decide_False, decide_True by done. by rewrite He.
Qed.

Lemma tool_exceptions_become_failure_mappings_witness :
  run (generate_mcq Stub.failing Stub.topic 2 (lit "Easy") (lit ""))
  = (inr (PyDict [ (lit "success", PyBool false);
                   (lit "error", PyStr (lit "quota exceeded"));
                   (lit "topic", PyStr (lit "Photosynthesis")) ]),
     [CallQna (mcq_request Stub.topic 2 (lit "Easy") (lit ""))])
  /\ exists v,
       outcome (generate_flashcards Stub.failing Stub.topic 20 (lit "Hard") (lit "QA"))
       = inr v
       /\ py_get v (lit "error") = Some (PyStr (lit "quota exceeded")).
Proof.
  destruct (tool_exceptions_become_failure_mappings Stub.failing Stub.topic)
    as (Hm & _ & Hf).
  split.
  - apply (proj1 (proj2 (Hm 2 (lit "Easy") (lit ""))) Stub.boom).
    rewrite generate_mcq_try_run.
    rewrite decide_False by apply topic_not_blank. reflexivity.
  - destruct (proj2 (proj2 (Hf 20 (lit "Hard") (lit "QA"))) Stub.boom
                topic_not_blank ltac:(lia) eq_refl) as (v & Hv & _ & He & _).
    exists v. split; [exact Hv | exact He].
Defined.





Lemma imap_same_card (f : nat -> Question -> pyval) (l l' : list Question) :
  (forall i q q', Spec.same_card q q' -> f i q = f i q') ->
  Forall2 Spec.same_card l l' -> imap f l = imap f l'.
Proof.
  intros Hf Hall. revert f Hf.
  induction Hall as [|q q' l l' Hq _ IH]; intros f Hf; [done|].
  rewrite !imap_cons. f_equal; [by apply Hf|].
  apply IH. intros i x x' Hx. by apply Hf.
Qed.

(** C5.  When the engine returns N items for valid input, [generate_mcq]
    returns the success mapping whose [questions] list has N entries in
    the engine's order, the entry at position i (from 1) carrying
    [question_number] i and the item's four fields unchanged, and whose
    [num_questions] is N. *)
Theorem generate_mcq_success (client : Educhain) (topic : pystr) (n : Z)
    (d ci : pystr) (qs : QuestionList) :
  ¬ blank topic -> 1 <= n <= 10 ->
  qna_engine client (mcq_request topic n d ci) = inr qs ->
  exists entries : list pyval,
    outcome (generate_mcq client topic n d ci)
    = inr (PyDict [ (lit "success", PyBool true);
                    (lit "topic", PyStr topic);
                    (lit "num_questions", PyInt (Z.of_nat (length (questions qs))));
                    (lit "difficulty_level", PyStr d);
                    (lit "questions", PyList entries) ])
    /\ length entries = length (questions qs)
    /\ forall (i : nat) (q : Question),
         questions qs !! i = Some q ->
         entries !! i
         = Some (PyDict [ (lit "question_number", PyInt (Z.of_nat i + 1));
                          (lit "question", PyStr (question q));
                          (lit "options", PyList (PyStr <$> options q));
                          (lit "correct_answer", PyStr (correct_answer q));
                          (lit "explanation", PyStr (explanation q)) ]).
Proof.
  intros Hb Hn Hqs. exists (imap Spec.mcq_item (questions qs)). split; [|split].
  - unfold outcome. rewrite generate_mcq_run.
    rewrite decide_False, decide_True by done. by rewrite Hqs.
  - apply length_imap.
  - intros i q Hi. rewrite list_lookup_imap. by rewrite Hi.
Qed.

Lemma generate_mcq_success_witness :
  exists entries : list pyval,
    outcome (generate_mcq Stub.ok Stub.topic 2 (lit "Easy") (lit ""))
    = inr (PyDict [ (lit "success", PyBool true);
                    (lit "topic", PyStr (lit "Photosynthesis"));
                    (lit "num_questions", PyInt 2);
                    (lit "difficulty_level", PyStr (lit "Easy"));
                    (lit "questions", PyList entries) ])
    /\ (flip py_get (lit "question_number") <$> entries !! 0%nat) = Some (Some (PyInt 1))
    /\ (flip py_get (lit "question_number") <$> entries !! 1%nat) = Some (Some (PyInt 2)).
Proof.
  destruct (generate_mcq_success Stub.ok Stub.topic 2 (lit "Easy") (lit "") Stub.items
              topic_not_blank ltac:(lia) eq_refl) as (entries & Hout & _ & Hentry).
  exists entries. split; [exact Hout|].
  rewrite (Hentry 0%nat Stub.q1 eq_refl), (Hentry 1%nat Stub.q2 eq_refl).
  split; reflexivity.
Defined.

(** C8.  When the engine returns N short-answer items for valid input,
    [generate_flashcards] returns the success mapping whose [flashcards]
    list has N entries, the entry at position i (from 1) being exactly
    [card_number] i, [front] the question, [back] the correct answer,
    [category] the topic and [difficulty] the difficulty level; the
    options and explanations of the items do not reach the result: items
    that agree on question and correct answer give the same result. *)
Theorem generate_flashcards_success (client : Educhain) (topic : pystr) (n : Z)
    (d ct : pystr) (qs : QuestionList) :
  ¬ blank topic -> 1 <= n <= 20 ->
  qna_engine client (flashcard_request topic n d ct) = inr qs ->
  (exists cards : list pyval,
     outcome (generate_flashcards client topic n d ct)
     = inr (PyDict [ (lit "success", PyBool true);
                     (lit "topic", PyStr topic);
                     (lit "num_cards", PyInt (Z.of_nat (length (questions qs))));
                     (lit "difficulty_level", PyStr d);
                     (lit "card_type", PyStr ct);
                     (lit "flashcards", PyList cards) ])
     /\ length cards = length (questions qs)
     /\ forall (i : nat) (q : Question),
          questions qs !! i = Some q ->
          cards !! i
          = Some (PyDict [ (lit "card_number", PyInt (Z.of_nat i + 1));
                           (lit "front", PyStr (question q));
                           (lit "back", PyStr (correct_answer q));
                           (lit "category", PyStr topic);
                           (lit "difficulty", PyStr d) ]))
  /\ (forall (client' : Educhain) (qs' : QuestionList),
        qna_engine client' (flashcard_request topic n d ct) = inr qs' ->
        Forall2 Spec.same_card (questions qs) (questions qs') ->
        outcome (generate_flashcards client' topic n d ct)
        = outcome (generate_flashcards client topic n d ct)).
Proof.
  intros Hb Hn Hqs. split.
  - exists (imap (Spec.flashcard topic d) (questions qs)). split; [|split].
    + unfold outcome. rewrite generate_flashcards_run.
      rewrite decide_False, decide_True by done. by rewrite Hqs.
    + apply length_imap.
    + intros i q Hi. rewrite list_lookup_imap. by rewrite Hi.
  - intros client' qs' Hqs' Hsame. unfold outcome.
    rewrite !generate_flashcards_run.
    repeat case_decide; try done. rewrite Hqs, Hqs'.
    unfold Spec.flashcards_result. cbn [fst].
    rewrite (Forall2_length _ _ _ Hsame).
    assert (Hcard : forall i q q', Spec.same_card q q' ->
              Spec.flashcard topic d i q = Spec.flashcard topic d i q').
    { intros i q q' [Hq Ha]. unfold Spec.flashcard. by rewrite Hq, Ha. }
    by rewrite (imap_same_card _ _ _ Hcard Hsame).
Qed.

Lemma generate_flashcards_success_witness :
  outcome (generate_flashcards Stub.ok' Stub.topic 2 (lit "Easy") (lit "QA"))
  = outcome (generate_flashcards Stub.ok Stub.topic 2 (lit "Easy") (lit "QA")).
Proof.
  apply (proj2 (generate_flashcards_success Stub.ok Stub.topic 2 (lit "Easy") (lit "QA")
                  Stub.items topic_not_blank ltac:(lia) eq_refl)
           Stub.ok' Stub.items' eq_refl).
  repeat constructor.
Defined.

(** ** The overview, line by line *)

Lemma bulleted_block_length (items : list pystr) :
  length (Spec.bulleted_block items) = Nat.max 1 (length items).
Proof.
  unfold Spec.bulleted_block. destruct items as [|x items]; [done|].
  cbn [fmap list_fmap length]. by rewrite length_fmap.
Qed.

Lemma bulleted_block_lookup (items : list pystr) (i : nat) (item : pystr) :
  items !! i = Some item ->
  Spec.bulleted_block items !! i
  = Some ((if decide (i = 0%nat) then indent else []) ++ Spec.bulleted item).
Proof.
  unfold Spec.bulleted_block. destruct items as [|x items]; [done|].
  destruct i as [|i].
  - by intros [= ->].
  - intros Hi. change (items !! i = Some item) in Hi.
    change ((Spec.bulleted <$> items) !! i = Some ([] ++ Spec.bulleted item)).
    rewrite list_lookup_fmap. by rewrite Hi.
Qed.

Lemma bulleted_block_no_newline (items : list pystr) :
  Forall (fun s => 10%N ∉ s) items ->
  Forall (fun s => 10%N ∉ s) (Spec.bulleted_block items).
Proof.
  assert (Hb : forall s, 10%N ∉ s -> 10%N ∉ Spec.bulleted s).
  { intros s Hs. unfold Spec.bulleted.
    rewrite !not_elem_of_app. repeat split; [compute_done..|done]. }
  unfold Spec.bulleted_block. intros [|x rest Hx Hitems]; cbn [fmap list_fmap].
  - constructor; [compute_done|constructor].
  - constructor.
    + rewrite not_elem_of_app. split; [compute_done|by apply Hb].
    + apply Forall_fmap. eapply Forall_impl; [exact Hitems|]. exact Hb.
Qed.

Lemma overview_lines_no_newline (topic : pystr) (p : LessonPlan) :
  10%N ∉ topic -> 10%N ∉ introduction p -> 10%N ∉ assessment p ->
  Forall (fun s => 10%N ∉ s) (objectives p) ->
  Forall (fun s => 10%N ∉ s) (materials p) ->
  Forall (fun s => 10%N ∉ s) (Spec.overview_lines topic p).
Proof.
  intros Ht Hi Ha Ho Hm. unfold Spec.overview_lines.
  repeat first
    [ apply Forall_app; split
    | apply bulleted_block_no_newline; assumption
    | apply Forall_cons; split
    | apply Forall_nil_2
    | rewrite !not_elem_of_app; repeat split; (assumption || compute_done)
    | compute_done ].
Qed.

(** C6.  [get_topic_overview] asks the lesson engine for a plan with
    duration "Overview" and grade level "General".  The text it returns
    for a plan is the newline-joined list of overview lines, in which the
    introduction and the assessment stand unchanged, every objective and
    every material is one bulleted line in the engine's order (the first
    line of each list carrying the indentation of the surrounding text),
    and, when no field contains a newline, these are exactly the lines of
    the text. *)
Theorem topic_overview_rendering (client : Educhain) (topic : pystr) :
  calls (get_topic_overview client topic)
  = [CallLesson {| l_topic := topic;
                   l_duration := lit "Overview";
                   l_grade_level := lit "General";
                   l_learning_objectives := None |}]
  /\ forall p : LessonPlan,
       content_engine client (overview_request topic) = inr p ->
       exists (text : pystr) (lines : list pystr),
         outcome (get_topic_overview client topic) = inr text
         /\ text = join (chr 10) lines
         /\ lines !! 3%nat = Some (indent ++ lit "Description: " ++ introduction p)
         /\ (forall (i : nat) (obj : pystr),
               objectives p !! i = Some obj ->
               lines !! (6 + i)%nat
               = Some ((if decide (i = 0%nat) then indent else [])
                       ++ bullet ++ lit " " ++ obj))
         /\ (forall (i : nat) (mat : pystr),
               materials p !! i = Some mat ->
               lines !! (8 + Nat.max 1 (length (objectives p)) + i)%nat
               = Some ((if decide (i = 0%nat) then indent else [])
                       ++ bullet ++ lit " " ++ mat))
         /\ lines !! (10 + Nat.max 1 (length (objectives p))
                      + Nat.max 1 (length (materials p)))%nat
            = Some (indent ++ assessment p)
         /\ length lines
            = (12 + Nat.max 1 (length (objectives p))
               + Nat.max 1 (length (materials p)))%nat
         /\ (10%N ∉ topic -> 10%N ∉ introduction p -> 10%N ∉ assessment p ->
             Forall (fun s => 10%N ∉ s) (objectives p) ->
             Forall (fun s => 10%N ∉ s) (materials p) ->
             split_on 10 text = lines).
Proof.
  split.
  { unfold calls. by rewrite get_topic_overview_run. }
  intros p Hp.
  exists (join nl (Spec.overview_lines topic p)), (Spec.overview_lines topic p).
  split; [|split; [done|]].
  { unfold outcome. rewrite get_topic_overview_run. by rewrite Hp. }
  pose proof (bulleted_block_length (objectives p)) as Hlo.
  pose proof (bulleted_block_length (materials p)) as Hlm.
  split; [done|]. split; [|split; [|split; [|split]]].
  - intros i obj Hi. unfold Spec.overview_lines.
    rewrite lookup_app_r by (simpl; lia).
    replace (6 + i - _)%nat with i by (simpl; lia).
    rewrite lookup_app_l.
    + by apply bulleted_block_lookup.
    + rewrite Hlo. apply lookup_lt_Some in Hi. lia.
  - intros i mat Hi. unfold Spec.overview_lines.
    rewrite lookup_app_r by (simpl; lia).
    rewrite lookup_app_r by (simpl; lia).
    rewrite lookup_app_r by (simpl; lia).
    replace (_ - _ - _ - _)%nat with i by (simpl; lia).
    rewrite lookup_app_l.
    + by apply bulleted_block_lookup.
    + rewrite Hlm. apply lookup_lt_Some in Hi. lia.
  - unfold Spec.overview_lines.
    rewrite lookup_app_r by (simpl; lia).
    rewrite lookup_app_r by (simpl; lia).
    rewrite lookup_app_r by (simpl; lia).
    rewrite lookup_app_r by (simpl; lia).
    by replace (_ - _ - _ - _ - _)%nat with 2%nat by (simpl; lia).
  - unfold Spec.overview_lines. rewrite !length_app, Hlo, Hlm. simpl. lia.
  - intros Ht Hi Ha Ho Hm. apply split_on_join.
    + by unfold Spec.overview_lines.
    + by apply overview_lines_no_newline.
Qed.

Lemma topic_overview_rendering_witness :
  exists lines : list pystr,
    outcome (get_topic_overview Stub.ok Stub.topic) = inr (join (chr 10) lines)
    /\ lines
       = [ [];
           indent ++ lit "Topic Overview: Photosynthesis";
           indent;
           indent ++ lit "Description: How plants make sugar.";
           indent;
           indent ++ lit "Key Concepts:";
           indent ++ bullet ++ lit " Name the inputs";
           bullet ++ lit " Name the outputs";
           indent;
           indent ++ lit "Materials Needed:";
           indent ++ bullet ++ lit " Leaf";
           bullet ++ lit " Lamp";
           bullet ++ lit " Beaker";
           indent;
           indent ++ lit "Assessment Methods:";
           indent ++ lit "Exit ticket";
           indent ].
Proof.
  destruct (proj2 (topic_overview_rendering Stub.ok Stub.topic) Stub.plan eq_refl)
    as (text & lines & Hout & Htext & _ & _ & _ & _ & _ & Hsplit).
  exists lines. split; [congruence|].
  assert (Hrun : text = join nl (Spec.overview_lines Stub.topic Stub.plan)).
  { unfold outcome in Hout. rewrite get_topic_overview_run in Hout.
    by injection Hout. }
  rewrite <- Hsplit.
  - rewrite Hrun. vm_compute. reflexivity.
  - compute_done.
  - compute_done.
  - compute_done.
  - repeat constructor; compute_done.
  - repeat constructor; compute_done.
Defined.

(** C7.  [get_sample_questions] always asks the question engine for 3
    multiple-choice items at difficulty "Medium".  For the items the
    engine returns, the text is the heading followed, per item in order,
    by a question line, the option lines numbered from 1, the
    correct-answer line, the explanation line and a blank line; when the
    engine raises, the text is "Error retrieving sample questions for
    {topic}: " followed by the message. *)
Theorem sample_questions_rendering (client : Educhain) (topic : pystr) :
  calls (get_sample_questions client topic)
  = [CallQna {| q_topic := topic;
                q_num := 3;
                q_question_type := lit "Multiple Choice";
                q_difficulty_level := lit "Medium";
                q_custom_instructions := None;
                q_prompt_template := None |}]
  /\ (forall qs : QuestionList,
        qna_engine client (sample_request topic) = inr qs ->
        outcome (get_sample_questions client topic)
        = inr (lit "Sample Questions for: " ++ topic ++ chr 10 ++ chr 10
               ++ concat (imap Spec.question_block (questions qs))))
  /\ (forall e : exn,
        qna_engine client (sample_request topic) = inl e ->
        outcome (get_sample_questions client topic)
        = inr (lit "Error retrieving sample questions for " ++ topic ++ lit ": "
               ++ str_exn e)).
Proof.
  unfold calls, outcome. rewrite get_sample_questions_run. split; [done|].
  split; intros x Hx; by rewrite Hx.
Qed.

Lemma sample_questions_rendering_witness :
  outcome (get_sample_questions Stub.ok Stub.topic)
  = inr (join (chr 10)
           [ lit "Sample Questions for: Photosynthesis";
             lit "";
             lit "Question 1: Which gas do plants absorb?";
             lit "  1. Oxygen";
             lit "  2. Carbon dioxide";
             lit "  3. Nitrogen";
             lit "Correct Answer: Carbon dioxide";
             lit "Explanation: Carbon dioxide is fixed in the Calvin cycle.";
             lit "";
             lit "Question 2: Where does photosynthesis take place?";
             lit "  1. Mitochondria";
             lit "  2. Chloroplast";
             lit "Correct Answer: Chloroplast";
             lit "Explanation: Chloroplasts hold the chlorophyll.";
             lit "";
             lit "" ])
  /\ outcome (get_sample_questions Stub.failing Stub.topic)
     = inr (lit "Error retrieving sample questions for Photosynthesis: quota exceeded").
Proof.
  split.
  - rewrite (proj1 (proj2 (sample_questions_rendering Stub.ok Stub.topic))
               Stub.items eq_refl).
    vm_compute. reflexivity.
  - rewrite (proj2 (proj2 (sample_questions_rendering Stub.failing Stub.topic))
               Stub.boom eq_refl).
    vm_compute. reflexivity.
Defined.

(** ** Start-up *)

Lemma not_key_true (api_key : option (list N)) :
  Server.not_key api_key = true <-> api_key = None \/ api_key = Some [].
Proof.
  destruct api_key as [[|c k]|]; simpl; split; try done; try by intros [|].
  - by right.
  - by left.
Qed.

(** C9.  When the API-key credential is absent from the process
    environment ([GOOGLE_API_KEY] unset, or set to the empty string,
    which the code reports as not set), constructing the server raises
    [ValueError] with a message naming the variable; nothing has been
    registered and [FastMCP.run] is never reached, so the process
    serves no operation.  When the credential is present, the check
    passes and the construction proceeds: the model is constructed with
    that key, then the configuration and the engine client, and the
    server object it returns has no operation registered yet. *)
Theorem api_key_gate {GeminiModel LLMConfigT : Type}
    (lib : Server.Library GeminiModel LLMConfigT) (environ : gmap (list N) (list N)) :
  (Server.getenv environ (lit "GOOGLE_API_KEY") = None
   \/ Server.getenv environ (lit "GOOGLE_API_KEY") = Some [] ->
     Server.new_server lib environ
     = inl (Exc (ValueError (lit "GOOGLE_API_KEY environment variable not set")))
     /\ contains (lit "GOOGLE_API_KEY environment variable not set")
          (lit "GOOGLE_API_KEY")
     /\ Server.served (Server.main lib environ) = None)
  /\ (forall k : list N,
        Server.getenv environ (lit "GOOGLE_API_KEY") = Some k -> k <> [] ->
        Server._initialize_components lib environ Server.fresh
        = match Server.ChatGoogleGenerativeAI lib
                  {| Server.model := lit "gemini-2.0-flash-exp";
                     Server.google_api_key := Some k;
                     Server.temperature := 7 # 10;
                     Server.max_tokens := 2048 |} with
          | inl t => inl t
          | inr gm =>
              match Server.LLMConfig lib gm with
              | inl t => inl t
              | inr cfg =>
                  match Server.Educhain_new lib cfg with
                  | inl t => inl t
                  | inr ec =>
                      inr {| Server.gemini_model := Some gm;
                             Server.educhain_client := Some ec;
                             Server.mcp_server :=
                               Some (Server.FastMCP_new
                                       (lit "EduChain Educational Content Server")) |}
                  end
              end
          end
        /\ forall server,
             Server.new_server lib environ = inr server ->
             exists mcp, Server.mcp_server server = Some mcp
                         /\ Server.registered mcp = []).
Proof.
  split.
  - intros Hkey%not_key_true.
    assert (Hnew : Server.new_server lib environ
                   = inl (Exc (ValueError
                                 (lit "GOOGLE_API_KEY environment variable not set")))).
    { unfold Server.new_server, Server._initialize_components, Server.GOOGLE_API_KEY.
      by rewrite Hkey. }
    split; [exact Hnew|]. split.
    + exists [], (lit " environment variable not set"). reflexivity.
    + unfold Server.main. by rewrite Hnew.
  - intros k Hk Hne.
    assert (Hnot : Server.not_key (Some k) = false) by by destruct k.
    assert (Hinit : Server._initialize_components lib environ Server.fresh
                    = match Server.ChatGoogleGenerativeAI lib
                              {| Server.model := lit "gemini-2.0-flash-exp";
                                 Server.google_api_key := Some k;
                                 Server.temperature := 7 # 10;
                                 Server.max_tokens := 2048 |} with
                      | inl t => inl t
                      | inr gm =>
                          match Server.LLMConfig lib gm with
                          | inl t => inl t
                          | inr cfg =>
                              match Server.Educhain_new lib cfg with
                              | inl t => inl t
                              | inr ec =>
                                  inr {| Server.gemini_model := Some gm;
                                         Server.educhain_client := Some ec;
                                         Server.mcp_server :=
                                           Some (Server.FastMCP_new
                                                   (lit "EduChain Educational Content Server")) |}
                              end
                          end
                      end).
    { unfold Server._initialize_components, Server.GOOGLE_API_KEY.
      by rewrite Hk, Hnot. }
    split; [exact Hinit|].
    intros server Hserver.
    unfold Server.new_server in Hserver. rewrite Hinit in Hserver.
    destruct (Server.ChatGoogleGenerativeAI lib _) as [?|gm]; [done|].
    destruct (Server.LLMConfig lib gm) as [?|cfg]; [done|].
    destruct (Server.Educhain_new lib cfg) as [?|ec]; [done|].
    injection Hserver as <-. by eexists.
Qed.

Lemma api_key_gate_witness :
  Server.new_server Stub.lib Stub.env_unset
  = inl (Exc (ValueError (lit "GOOGLE_API_KEY environment variable not set")))
  /\ Server.new_server Stub.lib Stub.env_empty
     = inl (Exc (ValueError (lit "GOOGLE_API_KEY environment variable not set")))
  /\ exists server mcp,
       Server.new_server Stub.lib Stub.env_set = inr server
       /\ Server.mcp_server server = Some mcp
       /\ Server.registered mcp = [].
Proof.
  destruct (api_key_gate Stub.lib Stub.env_unset) as [Hunset _].
  destruct (api_key_gate Stub.lib Stub.env_empty) as [Hempty _].
  destruct (api_key_gate Stub.lib Stub.env_set) as [_ Hset].
  split; [|split].
  - apply Hunset. left. reflexivity.
  - apply Hempty. right. reflexivity.
  - destruct (Hset (lit "AIza-key") eq_refl ltac:(discriminate)) as [_ Hserver].
    eexists. destruct (Hserver _ eq_refl) as (mcp & Hmcp & Hreg).
    exists mcp. split; [reflexivity|]. split; [exact Hmcp | exact Hreg].
Defined.

(** * Further properties of the operations *)

Lemma or_empty_default (lo : option (list (list N))) :
  or_empty lo = match lo with Some l => l | None => [] end.
Proof. by destruct lo as [[|x l]|]. Qed.

(** X1.  For a topic that is not blank, [generate_lesson_plan] makes one
    call to the lesson engine, with the duration and grade level as
    given and the learning objectives as a list (the empty list when
    none were passed); when the engine returns a plan, the result is the
    success mapping that echoes topic, duration and grade level and
    carries all eight fields of the plan. *)
Theorem lesson_plan_success (client : Educhain) (topic du g : pystr)
    (lo : option (list pystr)) (p : LessonPlan) :
  ¬ blank topic ->
  content_engine client
    {| l_topic := topic; l_duration := du; l_grade_level := g;
       l_learning_objectives := Some (match lo with Some l => l | None => [] end) |}
  = inr p ->
  run (generate_lesson_plan client topic du g lo)
  = ( inr (PyDict
        [ (lit "success", PyBool true);
          (lit "topic", PyStr topic);
          (lit "duration", PyStr du);
          (lit "grade_level", PyStr g);
          (lit "lesson_plan", PyDict
             [ (lit "title", PyStr (title p));
               (lit "objectives", PyList (PyStr <$> objectives p));
               (lit "materials", PyList (PyStr <$> materials p));
               (lit "introduction", PyStr (introduction p));
               (lit "main_content", main_content p);
               (lit "activities", activities p);
               (lit "assessment", PyStr (assessment p));
               (lit "conclusion", PyStr (conclusion p)) ]) ]),
      [ CallLesson
          {| l_topic := topic; l_duration := du; l_grade_level := g;
             l_learning_objectives :=
               Some (match lo with Some l => l | None => [] end) |} ] ).
Proof.
  intros Hb Hp. rewrite generate_lesson_plan_run, decide_False by done.
  unfold lesson_request. rewrite or_empty_default. by rewrite Hp.
Qed.

Lemma lesson_plan_success_witness :
  exists v,
    run (generate_lesson_plan Stub.ok Stub.topic (lit "1 hour") (lit "College") None)
    = (inr v,
       [ CallLesson {| l_topic := Stub.topic; l_duration := lit "1 hour";
                       l_grade_level := lit "College";
                       l_learning_objectives := Some [] |} ])
    /\ py_get v (lit "success") = Some (PyBool true).
Proof.
  eexists. split.
  - apply (lesson_plan_success Stub.ok Stub.topic (lit "1 hour") (lit "College") None
             Stub.plan topic_not_blank eq_refl).
  - reflexivity.
Defined.

Lemma fmap_PyStr_inj (l l' : list (list N)) :
  PyStr <$> l = PyStr <$> l' -> l = l'.
Proof.
  revert l'. induction l as [|x l IH]; intros [|x' l'] H; try done.
  injection H as -> H. by rewrite (IH _ H).
Qed.

Lemma imap_inj_items {A B} (l l' : list A) :
  forall f : nat -> A -> B,
    (forall i x x', f i x = f i x' -> x = x') ->
    imap f l = imap f l' -> l = l'.
Proof.
  revert l'. induction l as [|x l IH]; intros [|x' l'] f Hf H; try done.
  rewrite !imap_cons in H. injection H as Hx H.
  rewrite (Hf _ _ _ Hx). f_equal. apply (IH l' (f ∘ S)); [|done].
  intros i y y'. apply Hf.
Qed.

(** X2.  [generate_lesson_plan] loses nothing of the plan: two engine
    answers that lead to the same result are the same plan. *)
Theorem lesson_plan_result_determines_plan (client client' : Educhain)
    (topic du g : pystr) (lo : option (list pystr)) (p p' : LessonPlan) :
  ¬ blank topic ->
  content_engine client (lesson_request topic du g lo) = inr p ->
  content_engine client' (lesson_request topic du g lo) = inr p' ->
  outcome (generate_lesson_plan client topic du g lo)
  = outcome (generate_lesson_plan client' topic du g lo) ->
  p = p'.
Proof.
  intros Hb Hp Hp'. unfold outcome. rewrite !generate_lesson_plan_run.
  rewrite !decide_False by done. rewrite Hp, Hp'. cbn [fst].
  unfold Spec.lesson_result. intros H.
  injection H as Ht Ho Hm Hi Hc Ha Hs Hn.
  apply fmap_PyStr_inj in Ho, Hm.
  destruct p, p'. cbn in *. by subst.
Qed.

Lemma lesson_plan_result_determines_plan_witness :
  outcome (generate_lesson_plan Stub.ok Stub.topic (lit "1 hour") (lit "College") None)
  = outcome (generate_lesson_plan Stub.ok' Stub.topic (lit "1 hour") (lit "College") None)
  /\ Stub.plan = Stub.plan.
Proof.
  split; [reflexivity|].
  exact (lesson_plan_result_determines_plan Stub.ok Stub.ok' Stub.topic (lit "1 hour")
           (lit "College") None Stub.plan Stub.plan topic_not_blank eq_refl eq_refl
           eq_refl).
Defined.

(** X3.  [generate_mcq] loses nothing of the returned items: two engine
    answers that lead to the same result are the same list of items. *)
Theorem mcq_result_determines_items (client client' : Educhain)
    (topic : pystr) (n : Z) (d ci : pystr) (qs qs' : QuestionList) :
  ¬ blank topic -> 1 <= n <= 10 ->
  qna_engine client (mcq_request topic n d ci) = inr qs ->
  qna_engine client' (mcq_request topic n d ci) = inr qs' ->
  outcome (generate_mcq client topic n d ci)
  = outcome (generate_mcq client' topic n d ci) ->
  qs = qs'.
Proof.
  intros Hb Hn Hqs Hqs'. unfold outcome. rewrite !generate_mcq_run.
  repeat case_decide; try done. rewrite Hqs, Hqs'. cbn [fst].
  unfold Spec.mcq_result. intros Heq. injection Heq as _ Himap.
  destruct qs as [l], qs' as [l']. cbn [questions] in *. f_equal.
  apply (imap_inj_items _ _ Spec.mcq_item); [|done].
  intros i q q' Hq. unfold Spec.mcq_item in Hq.
  injection Hq as Hq Ho Ha He. apply fmap_PyStr_inj in Ho.
  destruct q, q'. cbn in *. by subst.
Qed.

Lemma mcq_result_determines_items_witness :
  outcome (generate_mcq Stub.ok Stub.topic 2 (lit "Easy") (lit ""))
  = outcome (generate_mcq
               {| qna_engine := fun _ => inr Stub.items;
                  content_engine := fun _ => inl Stub.boom |}
               Stub.topic 2 (lit "Easy") (lit ""))
  /\ Stub.items = Stub.items.
Proof.
  split; [reflexivity|].
  exact (mcq_result_determines_items Stub.ok
           {| qna_engine := fun _ => inr Stub.items;
              content_engine := fun _ => inl Stub.boom |}
           Stub.topic 2 (lit "Easy") (lit "") Stub.items Stub.items
           topic_not_blank ltac:(lia) eq_refl eq_refl eq_refl).
Defined.

(** X4.  The engine is called exactly when validation passes.  Each tool
    makes either no engine call or the single call of its own request;
    it makes none exactly when the topic is blank or, for
    [generate_mcq] and [generate_flashcards], the count is out of range. *)
Theorem tools_call_engine_iff_valid (client : Educhain) (topic : pystr) :
  (forall n d ci,
      (calls (generate_mcq client topic n d ci) = []
       \/ calls (generate_mcq client topic n d ci)
          = [CallQna (mcq_request topic n d ci)])
      /\ (calls (generate_mcq client topic n d ci) = []
          <-> blank topic \/ n < 1 \/ 10 < n))
  /\ (forall du g lo,
      (calls (generate_lesson_plan client topic du g lo) = []
       \/ calls (generate_lesson_plan client topic du g lo)
          = [CallLesson (lesson_request topic du g lo)])
      /\ (calls (generate_lesson_plan client topic du g lo) = [] <-> blank topic))
  /\ (forall n d ct,
      (calls (generate_flashcards client topic n d ct) = []
       \/ calls (generate_flashcards client topic n d ct)
          = [CallQna (flashcard_request topic n d ct)])
      /\ (calls (generate_flashcards client topic n d ct) = []
          <-> blank topic \/ n < 1 \/ 20 < n)).
Proof.
  unfold calls. split; [|split].
  - intros n d ci. rewrite generate_mcq_run.
    destruct (decide (blank topic)) as [Hb|Hb]; [|destruct (decide (1 <= n <= 10))];
      cbn [snd].
    + split; [by left|]. split; [by left|done].
    + split; [by right|]. split; [done|]. intros [?|?]; [done|lia].
    + split; [by left|]. split; [|done]. intros _. right. lia.
  - intros du g lo. rewrite generate_lesson_plan_run.
    destruct (decide (blank topic)) as [Hb|Hb]; cbn [snd].
    + split; [by left|]. done.
    + split; [by right|]. done.
  - intros n d ct. rewrite generate_flashcards_run.
    destruct (decide (blank topic)) as [Hb|Hb]; [|destruct (decide (1 <= n <= 20))];
      cbn [snd].
    + split; [by left|]. split; [by left|done].
    + split; [by right|]. split; [done|]. intros [?|?]; [done|lia].
    + split; [by left|]. split; [|done]. intros _. right. lia.
Qed.

(** X5.  For engines whose answers have the attributes the tools read
    (the answers of [Engine]), the [success] flag of a tool result can be
    relied on.  Every result carries the topic as given; [success] is
    true exactly when the input was valid and the engine returned such
    an answer, and then there is no [error] entry; otherwise [success]
    is false and [error] holds a message. *)
Theorem tool_results_are_tagged (client : Educhain) (topic : pystr) :
  (forall n d ci, exists v,
      outcome (generate_mcq client topic n d ci) = inr v
      /\ py_get v (lit "topic") = Some (PyStr topic)
      /\ (py_get v (lit "success") = Some (PyBool true)
          <-> ¬ blank topic /\ 1 <= n <= 10
              /\ exists qs, qna_engine client (mcq_request topic n d ci) = inr qs)
      /\ (py_get v (lit "success") = Some (PyBool true)
          /\ py_get v (lit "error") = None
          \/ py_get v (lit "success") = Some (PyBool false)
             /\ exists m, py_get v (lit "error") = Some (PyStr m)))
  /\ (forall du g lo, exists v,
      outcome (generate_lesson_plan client topic du g lo) = inr v
      /\ py_get v (lit "topic") = Some (PyStr topic)
      /\ (py_get v (lit "success") = Some (PyBool true)
          <-> ¬ blank topic
              /\ exists p, content_engine client (lesson_request topic du g lo) = inr p)
      /\ (py_get v (lit "success") = Some (PyBool true)
          /\ py_get v (lit "error") = None
          \/ py_get v (lit "success") = Some (PyBool false)
             /\ exists m, py_get v (lit "error") = Some (PyStr m)))
  /\ (forall n d ct, exists v,
      outcome (generate_flashcards client topic n d ct) = inr v
      /\ py_get v (lit "topic") = Some (PyStr topic)
      /\ (py_get v (lit "success") = Some (PyBool true)
          <-> ¬ blank topic /\ 1 <= n <= 20
              /\ exists qs, qna_engine client (flashcard_request topic n d ct) = inr qs)
      /\ (py_get v (lit "success") = Some (PyBool true)
          /\ py_get v (lit "error") = None
          \/ py_get v (lit "success") = Some (PyBool false)
             /\ exists m, py_get v (lit "error") = Some (PyStr m))).
Proof.
  assert (Hfail : forall m (P : Prop), ¬ P ->
    py_get (Spec.failure_mapping topic m) (lit "topic") = Some (PyStr topic)
    /\ (py_get (Spec.failure_mapping topic m) (lit "success") = Some (PyBool true) <-> P)
    /\ (py_get (Spec.failure_mapping topic m) (lit "success") = Some (PyBool true)
        /\ py_get (Spec.failure_mapping topic m) (lit "error") = None
        \/ py_get (Spec.failure_mapping topic m) (lit "success") = Some (PyBool false)
           /\ exists m', py_get (Spec.failure_mapping topic m) (lit "error")
                         = Some (PyStr m'))).
  { intros m P HP. split; [done|]. split; [split; [done|tauto]|].
    right. split; [done|]. by exists m. }
  unfold outcome. split; [|split].
  - intros n d ci. rewrite generate_mcq_run.
    destruct (decide (blank topic)) as [Hb|Hb];
      [|destruct (decide (1 <= n <= 10)) as [Hn|Hn];
        [destruct (qna_engine client (mcq_request topic n d ci)) as [e|qs]|]];
      cbn [fst]; (eexists; split; [reflexivity|]).
    + apply Hfail. tauto.
    + apply Hfail. by intros (_ & _ & [? ?]).
    + split; [done|]. split; [|by left]. split; [|done]. intros _. eauto.
    + apply Hfail. tauto.
  - intros du g lo. rewrite generate_lesson_plan_run.
    destruct (decide (blank topic)) as [Hb|Hb];
      [|destruct (content_engine client (lesson_request topic du g lo)) as [e|p]];
      cbn [fst]; (eexists; split; [reflexivity|]).
    + apply Hfail. tauto.
    + apply Hfail. by intros (_ & [? ?]).
    + split; [done|]. split; [|by left]. split; [|done]. intros _. eauto.
  - intros n d ct. rewrite generate_flashcards_run.
    destruct (decide (blank topic)) as [Hb|Hb];
      [|destruct (decide (1 <= n <= 20)) as [Hn|Hn];
        [destruct (qna_engine client (flashcard_request topic n d ct)) as [e|qs]|]];
      cbn [fst]; (eexists; split; [reflexivity|]).
    + apply Hfail. tauto.
    + apply Hfail. by intros (_ & _ & [? ?]).
    + split; [done|]. split; [|by left]. split; [|done]. intros _. eauto.
    + apply Hfail. tauto.
Qed.

(** ** The resources *)

Lemma overview_text_starts_with_newline (topic : pystr) (p : LessonPlan) :
  exists rest, join nl (Spec.overview_lines topic p) = 10%N :: rest.
Proof.
  unfold Spec.overview_lines.
  rewrite join_app; [|done|].
  - cbn [join]. unfold nl, chr. cbn [app]. by eexists.
  - intros [H _]%app_eq_nil. by apply bulleted_block_ne in H.
Qed.

(** X6.  For engines whose answers have the attributes the resources
    read (the answers of [Engine]), a resource always returns text, and
    an engine failure can be told from it: the text of
    [get_topic_overview] begins with "Error retrieving overview for "
    exactly when the lesson engine raised, and the text of
    [get_sample_questions] begins with "Error retrieving sample questions
    for " exactly when the question engine raised. *)
Theorem resource_failure_is_recognisable (client : Educhain) (topic : pystr) :
  (exists text,
     outcome (get_topic_overview client topic) = inr text
     /\ (lit "Error retrieving overview for " `prefix_of` text
         <-> exists e, content_engine client (overview_request topic) = inl e))
  /\ (exists text,
        outcome (get_sample_questions client topic) = inr text
        /\ (lit "Error retrieving sample questions for " `prefix_of` text
            <-> exists e, qna_engine client (sample_request topic) = inl e)).
Proof.
  unfold outcome. rewrite get_topic_overview_run, get_sample_questions_run. split.
  - destruct (content_engine client (overview_request topic)) as [e|p];
      cbn [fst]; (eexists; split; [reflexivity|]).
    + split; [by eexists|]. intros _. by eexists.
    + split; [|by intros [? ?]]. intros [k Hk].
      destruct (overview_text_starts_with_newline topic p) as [rest Hrest].
      rewrite Hrest in Hk. vm_compute in Hk. discriminate Hk.
  - destruct (qna_engine client (sample_request topic)) as [e|qs];
      cbn [fst]; (eexists; split; [reflexivity|]).
    + split; [by eexists|]. intros _. by eexists.
    + split; [|by intros [? ?]]. intros [k Hk].
      apply (f_equal (take 1)) in Hk.
      unfold Spec.sample_questions_text in Hk. vm_compute in Hk. discriminate Hk.
Qed.

(** X7.  [get_topic_overview] shows the introduction, the objectives,
    the materials and the assessment of the plan and nothing else: plans
    that agree on these four fields give the same text, whatever their
    title, main content, activities and conclusion. *)
Theorem overview_uses_four_fields (client client' : Educhain) (topic : pystr)
    (p p' : LessonPlan) :
  content_engine client (overview_request topic) = inr p ->
  content_engine client' (overview_request topic) = inr p' ->
  introduction p = introduction p' ->
  objectives p = objectives p' ->
  materials p = materials p' ->
  assessment p = assessment p' ->
  outcome (get_topic_overview client topic)
  = outcome (get_topic_overview client' topic).
Proof.
  intros Hp Hp' Hi Ho Hm Ha. unfold outcome.
  rewrite !get_topic_overview_run, Hp, Hp'. cbn [fst].
  unfold Spec.overview_lines. by rewrite Hi, Ho, Hm, Ha.
Qed.

Lemma overview_uses_four_fields_witness :
  outcome (get_topic_overview Stub.ok Stub.topic)
  = outcome (get_topic_overview
               {| qna_engine := fun _ => inl Stub.boom;
                  content_engine := fun _ =>
                    inr {| title := lit "Another title";
                           objectives := objectives Stub.plan;
                           materials := materials Stub.plan;
                           introduction := introduction Stub.plan;
                           main_content := PyNone;
                           activities := PyList [];
                           assessment := assessment Stub.plan;
                           conclusion := lit "" |} |}
               Stub.topic).
Proof.
  by apply (overview_uses_four_fields Stub.ok _ Stub.topic Stub.plan
              {| title := lit "Another title";
                 objectives := objectives Stub.plan;
                 materials := materials Stub.plan;
                 introduction := introduction Stub.plan;
                 main_content := PyNone;
                 activities := PyList [];
                 assessment := assessment Stub.plan;
                 conclusion := lit "" |}).
Defined.

(** X8.  An engine answer without items is not an error: for valid
    input [generate_mcq] and [generate_flashcards] return [success: True]
    with count 0 and an empty list, and [get_sample_questions] returns
    the heading alone. *)
Theorem empty_engine_answer (client : Educhain) (topic : pystr) :
  (forall n d ci,
      ¬ blank topic -> 1 <= n <= 10 ->
      qna_engine client (mcq_request topic n d ci) = inr {| questions := [] |} ->
      outcome (generate_mcq client topic n d ci)
      = inr (PyDict [ (lit "success", PyBool true);
                      (lit "topic", PyStr topic);
                      (lit "num_questions", PyInt 0);
                      (lit "difficulty_level", PyStr d);
                      (lit "questions", PyList []) ]))
  /\ (forall n d ct,
      ¬ blank topic -> 1 <= n <= 20 ->
      qna_engine client (flashcard_request topic n d ct) = inr {| questions := [] |} ->
      outcome (generate_flashcards client topic n d ct)
      = inr (PyDict [ (lit "success", PyBool true);
                      (lit "topic", PyStr topic);
                      (lit "num_cards", PyInt 0);
                      (lit "difficulty_level", PyStr d);
                      (lit "card_type", PyStr ct);
                      (lit "flashcards", PyList []) ]))
  /\ (qna_engine client (sample_request topic) = inr {| questions := [] |} ->
      outcome (get_sample_questions client topic)
      = inr (lit "Sample Questions for: " ++ topic ++ chr 10 ++ chr 10)).
Proof.
  unfold outcome. split; [|split].
  - intros n d ci Hb Hn Hqs. rewrite generate_mcq_run.
    rewrite decide_False, decide_True by done. by rewrite Hqs.
  - intros n d ct Hb Hn Hqs. rewrite generate_flashcards_run.
    rewrite decide_False, decide_True by done. by rewrite Hqs.
  - intros Hqs. rewrite get_sample_questions_run, Hqs. cbn [fst questions].
    unfold Spec.sample_questions_text. cbn [imap concat].
    by rewrite !app_nil_r.
Qed.

Lemma empty_engine_answer_witness :
  outcome (generate_mcq
             {| qna_engine := fun _ => inr {| questions := [] |};
                content_engine := fun _ => inl Stub.boom |}
             Stub.topic 5 (lit "Hard") (lit ""))
  = inr (PyDict [ (lit "success", PyBool true);
                  (lit "topic", PyStr Stub.topic);
                  (lit "num_questions", PyInt 0);
                  (lit "difficulty_level", PyStr (lit "Hard"));
                  (lit "questions", PyList []) ]).
Proof.
  apply (proj1 (empty_engine_answer
                  {| qna_engine := fun _ => inr {| questions := [] |};
                     content_engine := fun _ => inl Stub.boom |} Stub.topic));
    [apply topic_not_blank | lia | reflexivity].
Defined.

(** ** The process *)

Lemma new_server_has_registry {GeminiModel LLMConfigT : Type}
    (lib : Server.Library GeminiModel LLMConfigT) (environ : gmap (list N) (list N))
    (server : Server.EduChainMCPServer GeminiModel) :
  Server.new_server lib environ = inr server ->
  Server.mcp_server server
  = Some (Server.FastMCP_new (lit "EduChain Educational Content Server")).
Proof.
  unfold Server.new_server, Server._initialize_components.
  destruct (Server.not_key _); [done|].
  destruct (Server.ChatGoogleGenerativeAI lib _) as [?|gm]; [done|].
  destruct (Server.LLMConfig lib gm) as [?|cfg]; [done|].
  destruct (Server.Educhain_new lib cfg) as [?|ec]; [done|].
  by intros [= <-].
Qed.

(** X9.  How the main block ends.  It exits with status 1 exactly when
    an [Exception] reached it, from the construction or from
    [FastMCP.run], and that exception is the one logged as fatal; it
    ends normally when [FastMCP.run] returned or when a
    [KeyboardInterrupt] reached it.  Whatever the construction raises
    reaches it before anything was registered; whatever [FastMCP.run]
    raises reaches it after the three tools and two resources were
    registered on the server named "EduChain Educational Content Server". *)
Theorem main_exit_status {GeminiModel LLMConfigT : Type}
    (lib : Server.Library GeminiModel LLMConfigT) (environ : gmap (list N) (list N)) :
  let registry :=
    Server.setup_resources
      (Server.setup_tools
         (Server.FastMCP_new (lit "EduChain Educational Content Server"))) in
  (Server.exit_code (Server.main lib environ) = Some 1
   <-> (exists e, Server.new_server lib environ = inl (Exc e))
       \/ ((exists server, Server.new_server lib environ = inr server)
           /\ exists e, Server.mcp_run lib registry = inl (Exc e)))
  /\ (Server.exit_code (Server.main lib environ) = None
      <-> Server.new_server lib environ = inl KeyboardInterrupt
          \/ ((exists server, Server.new_server lib environ = inr server)
              /\ (Server.mcp_run lib registry = inl KeyboardInterrupt
                  \/ Server.mcp_run lib registry = inr tt)))
  /\ (Server.interrupted (Server.main lib environ) = true
      <-> Server.new_server lib environ = inl KeyboardInterrupt
          \/ ((exists server, Server.new_server lib environ = inr server)
              /\ Server.mcp_run lib registry = inl KeyboardInterrupt))
  /\ (forall t,
        Server.new_server lib environ = inl t ->
        Server.served (Server.main lib environ) = None
        /\ Server.failure (Server.main lib environ)
           = match t with Exc e => Some e | KeyboardInterrupt => None end)
  /\ (forall server,
        Server.new_server lib environ = inr server ->
        Server.served (Server.main lib environ) = Some registry
        /\ Server.tools registry
           = [ lit "generate_mcq"; lit "generate_lesson_plan";
               lit "generate_flashcards" ]
        /\ Server.resources registry
           = [ lit "educhain://topic/{topic}"; lit "educhain://questions/{topic}" ]
        /\ Server.failure (Server.main lib environ)
           = match Server.mcp_run lib registry with
             | inl (Exc e) => Some e
             | _ => None
             end).
Proof.
  intros registry. unfold Server.main, Server.run_server.
  destruct (Server.new_server lib environ) as [[e|]|server] eqn:Hnew.
  - cbn. split; [|split; [|split; [|split]]].
    + split; [|done]. intros _. left. by eexists.
    + split; [done|]. by intros [?|[[? ?] _]].
    + split; [done|]. by intros [?|[[? ?] _]].
    + by intros ? [= <-].
    + done.
  - cbn. split; [|split; [|split; [|split]]].
    + split; [done|]. by intros [[? ?]|[[? ?] _]].
    + split; [|done]. intros _. by left.
    + split; [|done]. intros _. by left.
    + by intros ? [= <-].
    + done.
  - rewrite (new_server_has_registry _ _ _ Hnew). fold registry.
    destruct (Server.mcp_run lib registry) as [[e|]|[]] eqn:Hrun; cbn.
    + split; [|split; [|split; [|split]]].
      * split; [|done]. intros _. right. split; by eexists.
      * split; [done|]. by intros [?|[_ [?|?]]].
      * split; [done|]. by intros [?|[_ ?]].
      * done.
      * by intros ? _.
    + split; [|split; [|split; [|split]]].
      * split; [done|]. by intros [[? ?]|[_ [? ?]]].
      * split; [|done]. intros _. right. split; [by eexists|by left].
      * split; [|done]. intros _. right. split; [by eexists|done].
      * done.
      * by intros ? _.
    + split; [|split; [|split; [|split]]].
      * split; [done|]. by intros [[? ?]|[_ [? ?]]].
      * split; [|done]. intros _. right. split; [by eexists|by right].
      * split; [done|]. by intros [?|[_ ?]].
      * done.
      * by intros ? _.
Qed.

(** ** The set-up test *)

Lemma make_client_run {GeminiModel LLMConfigT : Type}
    (lib : TestSetup.Library GeminiModel LLMConfigT)
    (environ : gmap (list N) (list N)) (log : list call) :
  TestSetup.make_client lib environ log
  = (fst (run (TestSetup.make_client lib environ)), log).
Proof.
  unfold run, TestSetup.make_client, TestSetup.construct, bind, ret.
  destruct (TestSetup.ChatGoogleGenerativeAI lib _) as [?|gm]; [done|].
  destruct (TestSetup.LLMConfig lib gm) as [?|cfg]; [done|].
  by destruct (TestSetup.Educhain_new lib cfg).
Qed.

Lemma test_setup_run {GeminiModel LLMConfigT : Type}
    (lib : TestSetup.Library GeminiModel LLMConfigT)
    (environ : gmap (list N) (list N)) :
  run (TestSetup.test_educhain_setup lib environ)
  = match outcome (TestSetup.make_client lib environ) with
    | inl _ => (inr false, [])
    | inr client =>
        match qna_engine client TestSetup.mcq_request with
        | inl _ => (inr false, [CallQna TestSetup.mcq_request])
        | inr _ =>
            ( inr match content_engine client TestSetup.lesson_request with
                  | inl _ => false
                  | inr _ => true
                  end,
              [CallQna TestSetup.mcq_request; CallLesson TestSetup.lesson_request] )
        end
    end.
Proof.
  unfold run at 1, TestSetup.test_educhain_setup, try_except, bind at 1.
  rewrite make_client_run. unfold outcome.
  destruct (run (TestSetup.make_client lib environ)).1 as [e|client]; [done|].
  unfold bind, generate_questions, generate_lesson_plan_engine, ret.
  destruct (qna_engine client TestSetup.mcq_request) as [e|qs]; [done|].
  by destruct (content_engine client TestSetup.lesson_request).
Qed.





(** ** The sample questions, line by line *)

Lemma lit_cons (c : ascii) (s : string) : lit (String c s) = N_of_ascii c :: lit s.
Proof. reflexivity. Qed.

Lemma digits_no_newline (u : Decimal.uint) :
  10%N ∉ lit (NilEmpty.string_of_uint u).
Proof.
  induction u; cbn [NilEmpty.string_of_uint];
    [apply not_elem_of_nil | rewrite lit_cons, not_elem_of_cons; split; [done|assumption]..].
Qed.

Lemma str_of_int_no_newline (z : Z) : 10%N ∉ str_of_int z.
Proof.
  unfold str_of_int, NilZero.string_of_int, NilZero.string_of_uint.
  destruct (Z.to_int z) as [u|u].
  - destruct u; first [compute_done | apply digits_no_newline].
  - rewrite lit_cons, not_elem_of_cons. split; [done|].
    destruct u; first [compute_done | apply digits_no_newline].
Qed.

Lemma unlines_nil : Lines.unlines [] = [].
Proof. reflexivity. Qed.

Lemma unlines_cons (l : list N) (ls : list (list N)) :
  Lines.unlines (l :: ls) = l ++ chr 10 ++ Lines.unlines ls.
Proof. unfold Lines.unlines. cbn [fmap list_fmap concat]. by rewrite <- app_assoc. Qed.

Lemma unlines_app (l1 l2 : list (list N)) :
  Lines.unlines (l1 ++ l2) = Lines.unlines l1 ++ Lines.unlines l2.
Proof. unfold Lines.unlines. by rewrite fmap_app, concat_app. Qed.

Lemma unlines_concat (ls : list (list (list N))) :
  Lines.unlines (concat ls) = concat (Lines.unlines <$> ls).
Proof.
  induction ls as [|l ls IH]; [done|].
  cbn [concat fmap list_fmap]. by rewrite unlines_app, IH.
Qed.

(** Splitting newline-ended lines gives the lines and a last empty piece. *)
Lemma split_on_unlines (ls : list (list N)) :
  Forall (fun l => 10%N ∉ l) ls ->
  split_on 10 (Lines.unlines ls) = ls ++ [[]].
Proof.
  induction 1 as [|l ls Hl _ IH]; [done|].
  rewrite unlines_cons.
  change (chr 10 ++ Lines.unlines ls) with (10%N :: Lines.unlines ls).
  rewrite split_on_app_sep by done. by rewrite IH.
Qed.

Lemma question_block_unlines (i : nat) (q : Question) :
  Spec.question_block i q = Lines.unlines (Lines.block_lines i q).
Proof.
  unfold Spec.question_block, Lines.block_lines. rewrite !unlines_app.
  assert (Hopts : concat (imap Spec.option_line (options q))
                  = Lines.unlines (imap Lines.option_text (options q))).
  { unfold Lines.unlines. rewrite fmap_imap. f_equal. apply imap_ext.
    intros j o _. unfold Spec.option_line, Lines.option_text, compose.
    by rewrite <- !app_assoc. }
  rewrite Hopts, !unlines_cons, unlines_nil.
  by rewrite <- ?app_assoc, ?app_nil_r.
Qed.

Lemma sample_questions_text_unlines (topic : pystr) (qs : list Question) :
  Spec.sample_questions_text topic qs = Lines.unlines (Lines.sample_lines topic qs).
Proof.
  unfold Spec.sample_questions_text, Lines.sample_lines.
  rewrite unlines_app, unlines_concat, fmap_imap.
  rewrite (imap_ext (fun n => Lines.unlines ∘ Lines.block_lines n) Spec.question_block).
  - rewrite !unlines_cons, unlines_nil.
    by rewrite <- ?app_assoc, ?app_nil_r.
  - intros i q _. unfold compose. by rewrite question_block_unlines.
Qed.

Lemma Forall_imap {A B} (P : A -> Prop) (Q : B -> Prop) (l : list A) :
  forall f : nat -> A -> B,
    (forall i x, P x -> Q (f i x)) -> Forall P l -> Forall Q (imap f l).
Proof.
  induction l as [|x l IH]; intros f Hf Hl; [constructor|].
  apply Forall_cons in Hl as [Hx Hl]. rewrite imap_cons. constructor; [by apply Hf|].
  apply IH; [|done]. intros i y. apply Hf.
Qed.

Lemma block_lines_no_newline (i : nat) (q : Question) :
  Lines.single_line q -> Forall (fun l => 10%N ∉ l) (Lines.block_lines i q).
Proof.
  intros (Hq & Ho & Ha & He). unfold Lines.block_lines.
  apply Forall_app. split; [|apply Forall_app; split].
  - constructor; [|constructor]. rewrite !not_elem_of_app.
    repeat split; [compute_done | apply str_of_int_no_newline | compute_done | done].
  - apply (Forall_imap (fun o => 10%N ∉ o)); [|done].
    intros j o Hj. unfold Lines.option_text. rewrite !not_elem_of_app.
    repeat split; [compute_done | apply str_of_int_no_newline | compute_done | done].
  - repeat constructor; try apply not_elem_of_nil;
      rewrite not_elem_of_app; (split; [compute_done|done]).
Qed.

(** X12.  When the topic and the texts of the returned items contain no
    newline, the lines of the text of [get_sample_questions] are the
    heading, an empty line, and for each item in order its question
    line, one line "  j. option" per option numbered from 1, its
    correct-answer line, its explanation line and an empty line; the
    text ends with a newline. *)
Theorem sample_questions_lines (client : Educhain) (topic : pystr) (qs : QuestionList) :
  qna_engine client (sample_request topic) = inr qs ->
  10%N ∉ topic ->
  Forall Lines.single_line (questions qs) ->
  exists text,
    outcome (get_sample_questions client topic) = inr text
    /\ split_on 10 text
       = [ lit "Sample Questions for: " ++ topic; [] ]
         ++ concat (imap Lines.block_lines (questions qs))
         ++ [[]]
    /\ forall (i : nat) (q : Question),
         questions qs !! i = Some q ->
         Lines.block_lines i q
         = [ lit "Question " ++ str_of_int (Z.of_nat i + 1) ++ lit ": " ++ question q ]
           ++ imap (fun j o => lit "  " ++ str_of_int (Z.of_nat j + 1) ++ lit ". " ++ o)
                (options q)
           ++ [ lit "Correct Answer: " ++ correct_answer q;
                lit "Explanation: " ++ explanation q;
                [] ].
Proof.
  intros Hqs Ht Hall. eexists. split; [|split].
  - unfold outcome. rewrite get_sample_questions_run, Hqs. reflexivity.
  - rewrite sample_questions_text_unlines, split_on_unlines.
    + unfold Lines.sample_lines. by rewrite <- app_assoc.
    + unfold Lines.sample_lines. apply Forall_app. split.
      * constructor; [|constructor; [apply not_elem_of_nil|constructor]].
        rewrite not_elem_of_app. split; [compute_done|done].
      * apply Forall_concat.
        apply (Forall_imap Lines.single_line); [|done].
        intros i q. apply block_lines_no_newline.
  - done.
Qed.

Lemma sample_questions_lines_witness :
  exists text,
    outcome (get_sample_questions Stub.ok Stub.topic) = inr text
    /\ split_on 10 text
       = [ lit "Sample Questions for: Photosynthesis";
           lit "";
           lit "Question 1: Which gas do plants absorb?";
           lit "  1. Oxygen";
           lit "  2. Carbon dioxide";
           lit "  3. Nitrogen";
           lit "Correct Answer: Carbon dioxide";
           lit "Explanation: Carbon dioxide is fixed in the Calvin cycle.";
           lit "";
           lit "Question 2: Where does photosynthesis take place?";
           lit "  1. Mitochondria";
           lit "  2. Chloroplast";
           lit "Correct Answer: Chloroplast";
           lit "Explanation: Chloroplasts hold the chlorophyll.";
           lit "";
           lit "" ].
Proof.
  destruct (sample_questions_lines Stub.ok Stub.topic Stub.items eq_refl)
    as (text & Hout & Hsplit & _).
  - compute_done.
  - repeat constructor; compute_done.
  - exists text. split; [exact Hout|]. rewrite Hsplit. vm_compute. reflexivity.
Defined.

(** ** What the flashcards keep *)

Lemma imap_eq_Forall2 {A B} (R : A -> A -> Prop) (l l' : list A) :
  forall f : nat -> A -> B,
    (forall i x x', f i x = f i x' -> R x x') ->
    imap f l = imap f l' -> Forall2 R l l'.
Proof.
  revert l'. induction l as [|x l IH]; intros [|x' l'] f Hf H; try done.
  rewrite !imap_cons in H. injection H as Hx H.
  constructor; [by eapply Hf|]. apply (IH l' (f ∘ S)); [|done].
  intros i y y'. apply Hf.
Qed.

(** X13.  [generate_flashcards] keeps the question and the correct
    answer of every item: two engine answers that lead to the same
    result have the same number of items and agree, item by item, on
    question and correct answer. *)
Theorem flashcards_result_determines_cards (client client' : Educhain)
    (topic : pystr) (n : Z) (d ct : pystr) (qs qs' : QuestionList) :
  ¬ blank topic -> 1 <= n <= 20 ->
  qna_engine client (flashcard_request topic n d ct) = inr qs ->
  qna_engine client' (flashcard_request topic n d ct) = inr qs' ->
  outcome (generate_flashcards client topic n d ct)
  = outcome (generate_flashcards client' topic n d ct) ->
  Forall2 (fun q q' => question q = question q'
                       /\ correct_answer q = correct_answer q')
    (questions qs) (questions qs').
Proof.
  intros Hb Hn Hqs Hqs'. unfold outcome. rewrite !generate_flashcards_run.
  repeat case_decide; try done. rewrite Hqs, Hqs'. cbn [fst].
  unfold Spec.flashcards_result. intros Heq. injection Heq as _ Himap.
  apply (imap_eq_Forall2 _ _ _ (Spec.flashcard topic d)); [|done].
  intros i q q' Hq. unfold Spec.flashcard in Hq. by injection Hq as -> ->.
Qed.

Lemma flashcards_result_determines_cards_witness :
  Forall2 (fun q q' => question q = question q'
                       /\ correct_answer q = correct_answer q')
    [Stub.q1; Stub.q2] (questions Stub.items').
Proof.
  exact (flashcards_result_determines_cards Stub.ok Stub.ok' Stub.topic 2 (lit "Easy")
           (lit "QA") Stub.items Stub.items' topic_not_blank ltac:(lia) eq_refl eq_refl
           eq_refl).
Defined.
